(** * Store cart creation and admin batch-job creation (medusa API routes)

    Shallow embedding of the two request handlers found under
    [packages/medusa/src/api/routes]:

    - [POST /store/carts], the handler with [StorePostCartReq] and [Item]
      (second part of [store/index.js], lines 53-286);
    - [POST /admin/batch-jobs], the handler with [AdminPostBatchesReq]
      (second part of [admin/gift-cards/delete-gift-card.ts], lines 41-107).

    The handlers are orchestration code over injected services.  The
    services are not part of the handlers, so they appear here as a record
    of operations over an abstract database; every call a handler makes is
    recorded in a trace, and failures are values of [Error].  Line numbers
    in the comments are those of the two files above. *)

From Stdlib Require Import ZArith QArith Ascii.
From stdpp Require Import base option list strings gmap fin_maps pretty.

Set Warnings "-register-all".

Local Open Scope string_scope.
Local Open Scope Z_scope.
Local Open Scope list_scope.

(** ** JavaScript values that cross the handler boundary *)

Inductive JsValue : Type :=
| JUndefined
| JNull
| JBool (b : bool)
| JNum (q : Q)
| JStr (s : string)
| JArr (l : list JsValue)
| JObj (o : gmap string JsValue).

(** [isDefined]: [val !== undefined && val !== null], on an optional field. *)
Definition isDefined {A} (v : option A) : bool :=
  match v with Some _ => true | None => false end.

(** [v && ...] on an optional string: [undefined] and [""] are falsy; a
    truthy value is handed on. *)
Definition truthy (v : option string) : option string :=
  match v with
  | Some s => if String.eqb s "" then None else Some s
  | None => None
  end.

(** ** Errors *)

Inductive MedusaErrorType := INVALID_DATA | NOT_FOUND | NOT_ALLOWED | DB_ERROR | UNEXPECTED_STATE.

Inductive Error :=
| MedusaError (type : MedusaErrorType) (message : string)
| TypeError (message : string)
| ResolutionError (key : string).

(** ** Data model *)

Module Region.
Record t := { id : string; countries : list string; currency_code : string }.
End Region.

Module Customer.
Record t := { id : string; email : string }.
End Customer.

Module Address.
Record t := { country_code : string }.
End Address.

Module LineItem.
Record t := {
  variant_id : string;
  quantity : Z;
  unit_price : Z;
  title : string
}.
End LineItem.

Module Cart.
Record t := {
  id : string;
  region_id : string;
  sales_channel_id : JsValue;
  context : gmap string JsValue;
  customer_id : option string;
  email : option string;
  shipping_address : option Address.t;
  items : list LineItem.t
}.
End Cart.

(** The response body of [retrieveWithTotals]: the cart and its totals. *)
Module CartWithTotals.
Record t := {
  cart : Cart.t;
  subtotal : Z;
  tax_total : Z;
  shipping_total : Z;
  total : Z
}.
End CartWithTotals.

(** [class Item] of the request body. *)
Module Item.
Record t := { variant_id : string; quantity : Z }.
End Item.

(** [class StorePostCartReq]. [items = None] is an absent [items] field. *)
Module StorePostCartReq.
Record t := {
  region_id : option string;
  country_code : option string;
  items : option (list Item.t);
  context : JsValue;
  sales_channel_id : JsValue
}.
End StorePostCartReq.

(** [Partial<CartCreateProps>] as the handler fills it. *)
Module CartCreateProps.
Record t := {
  region_id : string;
  sales_channel_id : JsValue;
  context : gmap string JsValue;
  customer_id : option string;
  email : option string;
  shipping_address : option Address.t
}.
End CartCreateProps.

(** [req.user], injected by the authentication middleware. *)
Module User.
Record t := {
  id : option string;
  userId : option string;
  customer_id : option string
}.
End User.

(** The part of the express request the cart handler reads:
    [req.validatedBody], [req.user], [reqIp.getClientIp(req)] and
    [req.get("user-agent")]. *)
Module Request.
Record t := {
  validatedBody : StorePostCartReq.t;
  user : option User.t;
  clientIp : JsValue;
  user_agent : JsValue
}.
End Request.

(** The context object handed to [lineItemService.generate]. *)
Module GenerateContext.
Record t := { region : Region.t; customer_id : option string }.
End GenerateContext.

(** ** Object spread and string helpers *)

(** Own enumerable properties copied by [{...v}]: the properties of an
    object, the indexed elements of an array or of a string (one entry per
    character of the embedded string), nothing for [undefined], [null],
    booleans and numbers. *)
Definition spread (v : JsValue) : gmap string JsValue :=
  match v with
  | JObj o => o
  | JArr l => list_to_map (imap (fun i x => (pretty i, x)) l)
  | JStr s =>
      list_to_map
        (imap (fun i c => (pretty i, JStr (String c EmptyString)))
              (String.list_ascii_of_string s))
  | _ => ∅
  end.

(** [{...a, ...b}]: the keys of [b] win. *)
Definition merge_objects (a b : gmap string JsValue) : gmap string JsValue :=
  b ∪ a.

Definition lower_ascii (c : ascii) : ascii :=
  let n := nat_of_ascii c in
  if (65 <=? n)%nat && (n <=? 90)%nat then ascii_of_nat (n + 32) else c.

(** [String.prototype.toLowerCase] on the ASCII range. *)
Fixpoint toLowerCase (s : string) : string :=
  match s with
  | EmptyString => EmptyString
  | String c r => String (lower_ascii c) (toLowerCase r)
  end.

(** ** The monad of handlers: state, failure and a trace of calls *)

Section Monad.
Context {St Ev : Type}.

Definition M (A : Type) : Type := St -> (Error + A) * St * list Ev.

Definition ret {A} (a : A) : M A := fun s => (inr a, s, []).

Definition throw {A} (e : Error) : M A := fun s => (inl e, s, []).

Definition bind {A B} (m : M A) (k : A -> M B) : M B :=
  fun s =>
    match m s with
    | (inl e, s1, t1) => (inl e, s1, t1)
    | (inr a, s1, t1) =>
        match k a s1 with
        | (r, s2, t2) => (r, s2, t1 ++ t2)
        end
    end.

(** A call to a collaborator that may write: the event is recorded, then
    the operation runs on the state. *)
Definition call {A} (ev : Ev) (op : St -> (Error + A) * St) : M A :=
  fun s => let '(r, s1) := op s in (r, s1, [ev]).

(** A call to a collaborator that only reads. *)
Definition read {A} (ev : Ev) (op : St -> Error + A) : M A :=
  fun s => (op s, s, [ev]).

(** A synchronous call that neither fails nor touches the state. *)
Definition pure_call {A} (ev : Ev) (a : A) : M A :=
  fun s => (inr a, s, [ev]).
End Monad.

Arguments M : clear implicits.

Declare Scope handler_scope.
Delimit Scope handler_scope with handler.
Notation "x <- c ;; k" := (bind c (fun x => k))
  (at level 100, c at next level, right associativity) : handler_scope.
Notation "c ;;; k" := (bind c (fun _ => k))
  (at level 100, right associativity) : handler_scope.

(** ** Collaborators of the cart handler *)

(** Every call the handlers make on their collaborators, with the
    arguments of the call. *)
Inductive Call :=
| Resolve (key : string)
| RegionService_list
| CustomerService_retrieve (customer_id : string)
| Transaction_start
| Transaction_commit
| Transaction_rollback
| CartService_create (toCreate : CartCreateProps.t)
| LineItemService_generate (variant_id region_id : string) (quantity : Z)
                           (context : GenerateContext.t)
| FeatureFlagRouter_isFeatureEnabled (key : string)
| CartService_addLineItems (cart_id : string) (items : list LineItem.t)
                           (validateSalesChannels : bool)
| CartService_retrieveWithTotals (cart_id : string) (select relations : list string).

(** The services the handler resolves from [req.scope], as operations on a
    database [DB].  Reads return a result; writes also return the database
    they leave behind, on failure too (a write may fail half-way).
    [stored_carts] is the cart table as a reader of the database sees it. *)
Record Services (DB : Type) := {
  regionService_list : DB -> Error + list Region.t;
  customerService_retrieve : string -> DB -> Error + Customer.t;
  cartService_create : CartCreateProps.t -> DB -> (Error + Cart.t) * DB;
  lineItemService_generate :
    string -> string -> Z -> GenerateContext.t -> DB -> (Error + LineItem.t) * DB;
  cartService_addLineItems :
    string -> list LineItem.t -> bool -> DB -> (Error + unit) * DB;
  cartService_retrieveWithTotals :
    string -> list string -> list string -> DB -> Error + CartWithTotals.t;
  featureFlagRouter_isFeatureEnabled : string -> bool;
  stored_carts : DB -> gmap string Cart.t
}.

Arguments regionService_list {DB}.
Arguments customerService_retrieve {DB}.
Arguments cartService_create {DB}.
Arguments lineItemService_generate {DB}.
Arguments cartService_addLineItems {DB}.
Arguments cartService_retrieveWithTotals {DB}.
Arguments featureFlagRouter_isFeatureEnabled {DB}.
Arguments stored_carts {DB}.

(** Modelled from the spec: [entityManager.transaction] of the ORM, which is
    not part of the handler.  The callback runs on the database; when it
    returns, its writes are committed; when it throws, the database is put
    back to what it was when the transaction started and the error is
    re-thrown ("the entire transaction is rolled back").  The services used
    inside are the [withTransaction(manager)] clones, so all their writes
    belong to the transaction. *)
Definition transaction {DB A} (work : M DB Call A) : M DB Call A :=
  fun db =>
    match work db with
    | (inr a, db1, t) => (inr a, db1, Transaction_start :: t ++ [Transaction_commit])
    | (inl e, _, t) => (inl e, db, Transaction_start :: t ++ [Transaction_rollback])
    end.

Module Response.
Record t := { status : Z; cart : CartWithTotals.t }.
End Response.

(** ** [POST /store/carts] *)

Section CreateCart.
Context {DB : Type}.
Variable S : Services DB.
(** [defaultStoreCartFields] and [defaultStoreCartRelations] are constants
    imported from the route index. *)
Variables defaultStoreCartFields defaultStoreCartRelations : list string.

Local Open Scope handler_scope.

Definition resolve (key : string) : M DB Call unit := pure_call (Resolve key) tt.

(** [reqContext]: both keys are always own properties, whatever their value. *)
Definition reqContext (req : Request.t) : gmap string JsValue :=
  <["user_agent" := Request.user_agent req]> {["ip" := Request.clientIp req]}.

(** [let region: Region], lines 180-192: with an explicit id the result of
    [regions.find] (possibly [undefined]), otherwise the first region, or
    a thrown [MedusaError] when there is none. *)
Definition resolve_region (validated : StorePostCartReq.t) (regions : list Region.t)
  : M DB Call (option Region.t) :=
  if isDefined (StorePostCartReq.region_id validated) then
    ret (List.find
           (fun r => bool_decide (Some (Region.id r) = StorePostCartReq.region_id validated))
           regions)
  else
    match regions with
    | [] => throw (MedusaError INVALID_DATA "A region is required to create a cart")
    | r :: _ => ret (Some r)
    end.

(** [req.user?.customer_id] *)
Definition user_customer_id (req : Request.t) : option string :=
  match Request.user req with
  | Some u => User.customer_id u
  | None => None
  end.

(** The [for (const item of validated.items)] loop: one [generate] call per
    item, each result pushed on [generatedLineItems]. *)
Fixpoint generate_loop (req : Request.t) (region : Region.t) (items : list Item.t)
         (generatedLineItems : list LineItem.t) : M DB Call (list LineItem.t) :=
  match items with
  | [] => ret generatedLineItems
  | item :: rest =>
      let context :=
        {| GenerateContext.region := region;
           GenerateContext.customer_id := user_customer_id req |} in
      generatedLineItem <-
        call (LineItemService_generate (Item.variant_id item) (Region.id region)
                                       (Item.quantity item) context)
             (lineItemService_generate S (Item.variant_id item) (Region.id region)
                                       (Item.quantity item) context) ;;
      generate_loop req region rest (generatedLineItems ++ [generatedLineItem])
  end.

(** The callback handed to [entityManager.transaction], lines 217-243. *)
Definition transaction_callback (req : Request.t) (region : Region.t)
           (toCreate : CartCreateProps.t) : M DB Call Cart.t :=
  cart <- call (CartService_create toCreate) (cartService_create S toCreate) ;;
  match StorePostCartReq.items (Request.validatedBody req) with
  | Some items =>
      if negb (Nat.eqb (length items) 0) then
        generatedLineItems <- generate_loop req region items [] ;;
        validateSalesChannels <-
          pure_call (FeatureFlagRouter_isFeatureEnabled "sales_channels")
                    (featureFlagRouter_isFeatureEnabled S "sales_channels") ;;
        call (CartService_addLineItems (Cart.id cart) generatedLineItems
                                       validateSalesChannels)
             (cartService_addLineItems S (Cart.id cart) generatedLineItems
                                       validateSalesChannels) ;;;
        ret cart
      else ret cart
  | None => ret cart
  end.

(** [toCreate] as built on lines 194-214, given the resolved region and the
    re-fetched customer (when there is one). *)
Definition build_toCreate (req : Request.t) (region : Region.t)
           (customer : option Customer.t) : CartCreateProps.t :=
  let validated := Request.validatedBody req in
  {| CartCreateProps.region_id := Region.id region;
     CartCreateProps.sales_channel_id := StorePostCartReq.sales_channel_id validated;
     CartCreateProps.context :=
       merge_objects (reqContext req) (spread (StorePostCartReq.context validated));
     CartCreateProps.customer_id := Customer.id <$> customer;
     CartCreateProps.email := Customer.email <$> customer;
     CartCreateProps.shipping_address :=
       (fun country_code => {| Address.country_code := toLowerCase country_code |})
         <$> truthy (StorePostCartReq.country_code validated) |}.

(** Everything the handler does before it opens the transaction, lines
    162-214: service resolution, region resolution, the first use of
    [region.id] (a [TypeError] on [undefined]) and the customer lookup. *)
Definition prepare (req : Request.t) : M DB Call (Region.t * CartCreateProps.t) :=
  let validated := Request.validatedBody req in
  resolve "lineItemService" ;;;
  resolve "cartService" ;;;
  resolve "regionService" ;;;
  resolve "productVariantService" ;;;
  resolve "manager" ;;;
  resolve "featureFlagRouter" ;;;
  regions <- read RegionService_list (regionService_list S) ;;
  region <- resolve_region validated regions ;;
  match region with
  | None => throw (TypeError "Cannot read properties of undefined (reading 'id')")
  | Some region =>
      customer <-
        match truthy (user_customer_id req) with
        | Some customer_id =>
            resolve "customerService" ;;;
            customer <- read (CustomerService_retrieve customer_id)
                             (customerService_retrieve S customer_id) ;;
            ret (Some customer)
        | None => ret None
        end ;;
      ret (region, build_toCreate req region customer)
  end.

(** The handler (default export), lines 161-251. *)
Definition create_cart (req : Request.t) : M DB Call Response.t :=
  prepared <- prepare req ;;
  let '(region, toCreate) := prepared in
  cart <- transaction (transaction_callback req region toCreate) ;;
  cart <-
    read (CartService_retrieveWithTotals (Cart.id cart) defaultStoreCartFields
                                         defaultStoreCartRelations)
         (cartService_retrieveWithTotals S (Cart.id cart) defaultStoreCartFields
                                         defaultStoreCartRelations) ;;
  ret {| Response.status := 200; Response.cart := cart |}.
End CreateCart.

(** ** Contracts of the persistence collaborators *)

Definition with_items (c : Cart.t) (items : list LineItem.t) : Cart.t :=
  {| Cart.id := Cart.id c;
     Cart.region_id := Cart.region_id c;
     Cart.sales_channel_id := Cart.sales_channel_id c;
     Cart.context := Cart.context c;
     Cart.customer_id := Cart.customer_id c;
     Cart.email := Cart.email c;
     Cart.shipping_address := Cart.shipping_address c;
     Cart.items := items |}.

(** The cart a successful [create] stores under [id] for the attributes
    [toCreate]; it has no line items yet. *)
Definition new_cart (id : string) (toCreate : CartCreateProps.t) : Cart.t :=
  {| Cart.id := id;
     Cart.region_id := CartCreateProps.region_id toCreate;
     Cart.sales_channel_id := CartCreateProps.sales_channel_id toCreate;
     Cart.context := CartCreateProps.context toCreate;
     Cart.customer_id := CartCreateProps.customer_id toCreate;
     Cart.email := CartCreateProps.email toCreate;
     Cart.shipping_address := CartCreateProps.shipping_address toCreate;
     Cart.items := [] |}.

(** Modelled from the spec: what the handler relies on from the cart and
    line-item services, whose code is not part of the handler (spec 4.2-4.4
    and 6).  [create] persists a new cart with the given attributes under a
    fresh id; [generate] produces a line item for the requested variant and
    quantity and leaves the cart table alone; [addLineItems] attaches the
    whole batch, in order, after the items the cart already has;
    [retrieveWithTotals] is a read of the persisted cart. *)
Class ServicesOK {DB} (S : Services DB) : Prop := {
  create_spec : forall toCreate d c d',
    cartService_create S toCreate d = (inr c, d') ->
    stored_carts S d !! Cart.id c = None /\
    c = new_cart (Cart.id c) toCreate /\
    stored_carts S d' = <[Cart.id c := c]> (stored_carts S d);
  generate_spec : forall v r q ctx d li d',
    lineItemService_generate S v r q ctx d = (inr li, d') ->
    stored_carts S d' = stored_carts S d /\
    LineItem.variant_id li = v /\ LineItem.quantity li = q;
  addLineItems_spec : forall cart_id lis b d u d',
    cartService_addLineItems S cart_id lis b d = (inr u, d') ->
    exists c, stored_carts S d !! cart_id = Some c /\
      stored_carts S d' =
        <[cart_id := with_items c (Cart.items c ++ lis)]> (stored_carts S d);
  retrieve_spec : forall cart_id sel rel d c,
    stored_carts S d !! cart_id = Some c ->
    exists ct, cartService_retrieveWithTotals S cart_id sel rel d = inr ct /\
               CartWithTotals.cart ct = c
}.

(** ** An in-memory store *)

(** Modelled from the spec: an implementation of the services over a store
    held in memory (regions, customers, variants with a price per region,
    carts).  The services themselves are not part of the handlers; this one
    follows spec 4.2-4.4: [generate] fails with "not found" when the variant
    does not exist in the region and with "invalid quantity" when the
    quantity is below 1, [addLineItems] checks the sales channel only when
    asked to.  It shows that the contracts above can be met and lets the
    handler run on concrete requests. *)

Module MemStore.

Record Variant := {
  title : string;
  prices : gmap string Z;          (* region id -> unit price *)
  sales_channels : list string     (* channels that carry the variant *)
}.

Record DB := {
  regions : list Region.t;
  customers : gmap string Customer.t;
  variants : gmap string Variant;
  carts : gmap string Cart.t;
  next_cart : nat
}.

Definition set_carts (d : DB) (cs : gmap string Cart.t) (n : nat) : DB :=
  {| regions := regions d; customers := customers d; variants := variants d;
     carts := cs; next_cart := n |}.

Definition list_regions (d : DB) : Error + list Region.t := inr (regions d).

Definition retrieve (customer_id : string) (d : DB) : Error + Customer.t :=
  match customers d !! customer_id with
  | Some c => inr c
  | None => inl (MedusaError NOT_FOUND ("Customer with id " +:+ customer_id +:+ " was not found"))
  end.

Definition create (toCreate : CartCreateProps.t) (d : DB) : (Error + Cart.t) * DB :=
  let id := "cart_" +:+ pretty (next_cart d) in
  match carts d !! id with
  | Some _ => (inl (MedusaError DB_ERROR "duplicate key"), d)
  | None =>
      let c := new_cart id toCreate in
      (inr c, set_carts d (<[id := c]> (carts d)) (Datatypes.S (next_cart d)))
  end.

Definition generate (variant_id region_id : string) (quantity : Z)
           (context : GenerateContext.t) (d : DB) : (Error + LineItem.t) * DB :=
  match variants d !! variant_id with
  | None => (inl (MedusaError NOT_FOUND "variant not found"), d)
  | Some v =>
      match prices v !! region_id with
      | None => (inl (MedusaError NOT_FOUND "variant not found in region"), d)
      | Some price =>
          if quantity <? 1 then (inl (MedusaError INVALID_DATA "invalid quantity"), d)
          else (inr {| LineItem.variant_id := variant_id;
                       LineItem.quantity := quantity;
                       LineItem.unit_price := price;
                       LineItem.title := title v |}, d)
      end
  end.

Definition carried_by (d : DB) (channel : JsValue) (li : LineItem.t) : bool :=
  match channel, variants d !! LineItem.variant_id li with
  | JStr sc, Some v => bool_decide (sc ∈ sales_channels v)
  | JStr _, None => false
  | _, _ => true
  end.

Definition addLineItems (cart_id : string) (lis : list LineItem.t)
           (validateSalesChannels : bool) (d : DB) : (Error + unit) * DB :=
  match carts d !! cart_id with
  | None => (inl (MedusaError NOT_FOUND "cart not found"), d)
  | Some c =>
      if validateSalesChannels
         && negb (forallb (carried_by d (Cart.sales_channel_id c)) lis)
      then (inl (MedusaError INVALID_DATA "item not available in sales channel"), d)
      else (inr tt,
            set_carts d (<[cart_id := with_items c (Cart.items c ++ lis)]> (carts d))
                      (next_cart d))
  end.

Definition line_total (li : LineItem.t) : Z :=
  LineItem.unit_price li * LineItem.quantity li.

Definition retrieveWithTotals (cart_id : string) (select relations : list string)
           (d : DB) : Error + CartWithTotals.t :=
  match carts d !! cart_id with
  | None => inl (MedusaError NOT_FOUND "cart not found")
  | Some c =>
      let sub := foldr (fun li acc => line_total li + acc) 0 (Cart.items c) in
      inr {| CartWithTotals.cart := c;
             CartWithTotals.subtotal := sub;
             CartWithTotals.tax_total := 0;
             CartWithTotals.shipping_total := 0;
             CartWithTotals.total := sub |}
  end.

(** The services over the in-memory store, for a given setting of the
    feature flags. *)
Definition services (flags : string -> bool) : Services DB :=
  {| regionService_list := list_regions;
     customerService_retrieve := retrieve;
     cartService_create := create;
     lineItemService_generate := generate;
     cartService_addLineItems := addLineItems;
     cartService_retrieveWithTotals := retrieveWithTotals;
     featureFlagRouter_isFeatureEnabled := flags;
     stored_carts := carts |}.

End MemStore.

(** ** Reading traces *)

Definition is_generate (c : Call) : bool :=
  match c with LineItemService_generate _ _ _ _ => true | _ => false end.

Definition is_addLineItems (c : Call) : bool :=
  match c with CartService_addLineItems _ _ _ => true | _ => false end.

Definition is_flag (c : Call) : bool :=
  match c with FeatureFlagRouter_isFeatureEnabled _ => true | _ => false end.

(** Calls through which the handler can write to the database. *)
Definition is_persistence (c : Call) : bool :=
  match c with
  | CartService_create _ | LineItemService_generate _ _ _ _
  | CartService_addLineItems _ _ _ => true
  | _ => false
  end.

(** Calls made before the transaction opens. *)
Definition is_prepare_call (c : Call) : bool :=
  match c with
  | Resolve _ | RegionService_list | CustomerService_retrieve _ => true
  | _ => false
  end.

(** Calls that concern line items: generation, the flag lookup made for the
    attach, and the attach. *)
Definition line_item_call (c : Call) : bool :=
  is_generate c || is_addLineItems c || is_flag c.

(** Neither a flag lookup nor an attach. *)
Definition quiet (c : Call) : bool := negb (is_flag c || is_addLineItems c).

(** Nothing, or the lookup of [sales_channels] followed by an attach that
    receives the value [fv]. *)
Definition flag_then_attach (fv : bool) (m : list Call) : Prop :=
  m = [] \/
  exists cart_id lis,
    m = [FeatureFlagRouter_isFeatureEnabled "sales_channels";
         CartService_addLineItems cart_id lis fv].

Definition count (p : Call -> bool) (t : list Call) : nat :=
  length (List.filter p t).

(** The six services resolved at the top of the cart handler, then the
    region listing. *)
Definition opening_calls : list Call :=
  [Resolve "lineItemService"; Resolve "cartService"; Resolve "regionService";
   Resolve "productVariantService"; Resolve "manager"; Resolve "featureFlagRouter";
   RegionService_list].

(** The [generate] call the loop makes for one requested item. *)
Definition generate_call (req : Request.t) (region : Region.t) (item : Item.t) : Call :=
  LineItemService_generate (Item.variant_id item) (Region.id region) (Item.quantity item)
    {| GenerateContext.region := region;
       GenerateContext.customer_id := user_customer_id req |}.

(** A generated line item answers a requested item. *)
Definition answers (item : Item.t) (li : LineItem.t) : Prop :=
  LineItem.variant_id li = Item.variant_id item /\
  LineItem.quantity li = Item.quantity item.

(** [validated.items?.length] is falsy. *)
Definition no_items (validated : StorePostCartReq.t) : Prop :=
  StorePostCartReq.items validated = None \/ StorePostCartReq.items validated = Some [].

(** How the customer attributes of [toCreate] come about: no truthy
    [customer_id] on the request and no customer, or a customer record
    fetched by that id. *)
Definition customer_fetched {DB} (S : Services DB) (req : Request.t) (d : DB)
           (customer : option Customer.t) : Prop :=
  match truthy (user_customer_id req) with
  | None => customer = None
  | Some customer_id =>
      exists c, customerService_retrieve S customer_id d = inr c /\ customer = Some c
  end.

(** The line-item work of the transaction fails with [e], after [create]
    returned [cart] and left the database [dc]: either the generation loop
    fails, or it completes and the batch attach fails. *)
Definition line_items_fail {DB} (S : Services DB) (req : Request.t) (region : Region.t)
           (cart : Cart.t) (items : list Item.t) (dc : DB) (e : Error) : Prop :=
  (exists d2 t, generate_loop S req region items [] dc = (inl e, d2, t)) \/
  (exists lis dg t da,
      generate_loop S req region items [] dc = (inr lis, dg, t) /\
      cartService_addLineItems S (Cart.id cart) lis
        (featureFlagRouter_isFeatureEnabled S "sales_channels") dg = (inl e, da)).

(** The error thrown when no region exists and none was asked for (the
    "missing configuration" failure of the region resolver). *)
Definition missing_region_error : Error :=
  MedusaError INVALID_DATA "A region is required to create a cart".

(** The (variant, quantity) pairs of a request and of a list of line items. *)
Definition requested_pairs (items : list Item.t) : list (string * Z) :=
  map (fun i => (Item.variant_id i, Item.quantity i)) items.

Definition line_item_pairs (lis : list LineItem.t) : list (string * Z) :=
  map (fun li => (LineItem.variant_id li, LineItem.quantity li)) lis.

(** ** Request validation in front of the cart handler *)

(** [object[key]]: a missing property reads as [undefined]. *)
Definition prop (o : gmap string JsValue) (key : string) : JsValue :=
  default JUndefined (o !! key).

(** The class-validator checks named by the decorators. *)
Definition isNotEmpty (v : JsValue) : bool :=
  match v with
  | JUndefined | JNull => false
  | JStr s => negb (String.eqb s "")
  | _ => true
  end.

Definition isString (v : JsValue) : bool :=
  match v with JStr _ => true | _ => false end.

(** [typeof v === "number" && Number.isInteger(v)] *)
Definition isInt (v : JsValue) : bool :=
  match v with JNum q => Pos.eqb (Qden (Qred q)) 1 | _ => false end.

Definition isArray (v : JsValue) : bool :=
  match v with JArr _ => true | _ => false end.

Definition isObject (v : JsValue) : bool :=
  match v with JObj _ => true | _ => false end.

Definition isBoolean (v : JsValue) : bool :=
  match v with JBool _ => true | _ => false end.

(** [@IsOptional()]: the other checks of the property are skipped when the
    value is [undefined] or [null]. *)
Definition isOptional (check : JsValue -> bool) (v : JsValue) : bool :=
  match v with
  | JUndefined | JNull => true
  | _ => check v
  end.

(** [class Item]: [@IsNotEmpty() @IsString() variant_id] and
    [@IsNotEmpty() @IsInt() quantity]. *)
Definition Item_valid (o : gmap string JsValue) : bool :=
  isNotEmpty (prop o "variant_id") && isString (prop o "variant_id")
  && isNotEmpty (prop o "quantity") && isInt (prop o "quantity").

(** [@ValidateNested({ each: true }) @Type(() => Item)] on one element. *)
Definition nested_Item_valid (v : JsValue) : bool :=
  match v with JObj o => Item_valid o | _ => false end.

(** [@IsOptional() @IsArray() @ValidateNested({ each: true })] on [items]. *)
Definition items_valid (v : JsValue) : bool :=
  isOptional
    (fun v => isArray v
              && match v with JArr l => forallb nested_Item_valid l | _ => true end) v.

(** [sales_channel_id] carries [IsString(), IsOptional()] only when the
    [sales_channels] flag is enabled ([FeatureFlagDecorators]). *)
Definition sales_channel_id_valid (flags : string -> bool) (v : JsValue) : bool :=
  if flags "sales_channels" then isOptional isString v else true.

(** The properties of [StorePostCartReq] that fail their decorators. *)
Definition StorePostCartReq_errors (flags : string -> bool) (body : gmap string JsValue)
  : list string :=
  (if isOptional isString (prop body "region_id") then [] else ["region_id"])
  ++ (if isOptional isString (prop body "country_code") then [] else ["country_code"])
  ++ (if items_valid (prop body "items") then [] else ["items"])
  ++ (if sales_channel_id_valid flags (prop body "sales_channel_id") then []
      else ["sales_channel_id"]).

Definition to_string_option (v : JsValue) : option string :=
  match v with JStr s => Some s | _ => None end.

(** The typed [Item] of a validated element. *)
Definition to_Item (v : JsValue) : Item.t :=
  match v with
  | JObj o =>
      {| Item.variant_id := default "" (to_string_option (prop o "variant_id"));
         Item.quantity := match prop o "quantity" with
                          | JNum q => Qnum (Qred q)
                          | _ => 0
                          end |}
  | _ => {| Item.variant_id := ""; Item.quantity := 0 |}
  end.

Definition to_StorePostCartReq (body : gmap string JsValue) : StorePostCartReq.t :=
  {| StorePostCartReq.region_id := to_string_option (prop body "region_id");
     StorePostCartReq.country_code := to_string_option (prop body "country_code");
     StorePostCartReq.items :=
       match prop body "items" with
       | JArr l => Some (map to_Item l)
       | _ => None
       end;
     StorePostCartReq.context := prop body "context";
     StorePostCartReq.sales_channel_id := prop body "sales_channel_id" |}.

(** Modelled from the spec: the schema-validation pass performed once at the
    boundary (the validation middleware is not part of the handler).  It
    applies the decorators of [StorePostCartReq] and [Item] to the request
    body and either produces the validated request value or fails with a
    [MedusaError] of type [INVALID_DATA] that names the failing properties. *)
Definition validate_StorePostCartReq (flags : string -> bool) (body : gmap string JsValue)
  : Error + StorePostCartReq.t :=
  match StorePostCartReq_errors flags body with
  | [] => inr (to_StorePostCartReq body)
  | errors => inl (MedusaError INVALID_DATA (String.concat ", " errors))
  end.

(** The express request before validation. *)
Module RawRequest.
Record t := {
  body : gmap string JsValue;
  user : option User.t;
  clientIp : JsValue;
  user_agent : JsValue
}.
End RawRequest.

(** Modelled from the spec: the route [POST /store/carts], validation
    first, then the handler on the validated body. *)
Definition post_carts {DB} (S : Services DB)
           (defaultStoreCartFields defaultStoreCartRelations : list string)
           (raw : RawRequest.t) : M DB Call Response.t :=
  match validate_StorePostCartReq (featureFlagRouter_isFeatureEnabled S)
                                  (RawRequest.body raw) with
  | inl e => throw e
  | inr validated =>
      create_cart S defaultStoreCartFields defaultStoreCartRelations
        {| Request.validatedBody := validated;
           Request.user := RawRequest.user raw;
           Request.clientIp := RawRequest.clientIp raw;
           Request.user_agent := RawRequest.user_agent raw |}
  end.

(** A malformed item in the words of the specification: the variant id is
    missing, or the quantity is not an integer or is non-positive. *)
Definition spec_malformed_item (o : gmap string JsValue) : bool :=
  match o !! "variant_id" with
  | None => true
  | Some _ =>
      match prop o "quantity" with
      | JNum q => negb (isInt (JNum q)) || negb (Qle_bool 1 q)
      | _ => true
      end
  end.

(** A validation failure: a [MedusaError] of type [INVALID_DATA]. *)
Definition is_validation_error (e : Error) : Prop :=
  exists message, e = MedusaError INVALID_DATA message.

(** ** [POST /admin/batch-jobs] *)

Module BatchJobs.

(** [class AdminPostBatchesReq] *)
Module AdminPostBatchesReq.
Record t := {
  type : string;
  context : gmap string JsValue;
  dry_run : bool
}.
End AdminPostBatchesReq.

(** What [prepareBatchJobForProcessing] returns and what
    [batchJobService.create] receives once [created_by] is added. *)
Module CreateInput.
Record t := {
  type : string;
  context : gmap string JsValue;
  dry_run : bool;
  created_by : option string
}.
End CreateInput.

Module BatchJob.
Record t := {
  id : string;
  type : string;
  context : gmap string JsValue;
  dry_run : bool;
  created_by : option string
}.
End BatchJob.

(** The first argument the handler passes to
    [prepareBatchJobForProcessing]: the validated body on line 75, the id
    of the created batch job on line 92. *)
Inductive PrepareArg :=
| OfRequest (validated : AdminPostBatchesReq.t)
| OfId (batch_job_id : string).

Inductive Call :=
| Resolve (key : string)
| PrepareBatchJobForProcessing (strategy : string) (arg : PrepareArg)
| BatchJobService_create (toCreate : CreateInput.t).

(** A batch strategy registered in the container. *)
Record Strategy (St : Type) := {
  prepareBatchJobForProcessing : PrepareArg -> St -> (Error + CreateInput.t) * St
}.
Arguments prepareBatchJobForProcessing {St}.

(** The container of the request scope: the strategies by registration
    key, and the batch-job service. *)
Record Container (St : Type) := {
  strategies : string -> option (Strategy St);
  batchJobService_create : CreateInput.t -> St -> (Error + BatchJob.t) * St
}.
Arguments strategies {St}.
Arguments batchJobService_create {St}.

Module Request.
Record t := { body : gmap string JsValue; user : option User.t }.
End Request.

Module Response.
Record t := { status : Z; batch_job : BatchJob.t }.
End Response.

(** The properties of [AdminPostBatchesReq] that fail their decorators:
    [@IsString() type], [@IsObject() context],
    [@IsBoolean() @IsOptional() dry_run]. *)
Definition AdminPostBatchesReq_errors (body : gmap string JsValue) : list string :=
  (if isString (prop body "type") then [] else ["type"])
  ++ (if isObject (prop body "context") then [] else ["context"])
  ++ (if isOptional isBoolean (prop body "dry_run") then [] else ["dry_run"]).

(** The typed request; [dry_run = false] is the default of the class. *)
Definition to_AdminPostBatchesReq (body : gmap string JsValue) : AdminPostBatchesReq.t :=
  {| AdminPostBatchesReq.type := default "" (to_string_option (prop body "type"));
     AdminPostBatchesReq.context :=
       match prop body "context" with JObj o => o | _ => ∅ end;
     AdminPostBatchesReq.dry_run :=
       match prop body "dry_run" with JBool b => b | _ => false end |}.

(** [validator(AdminPostBatchesReq, req.body)]: the validated request, or a
    [MedusaError] of type [INVALID_DATA] naming the failing properties (the
    [validator] helper is not part of the handler; its checks are the
    decorators above). *)
Definition validate_AdminPostBatchesReq (body : gmap string JsValue)
  : Error + AdminPostBatchesReq.t :=
  match AdminPostBatchesReq_errors body with
  | [] => inr (to_AdminPostBatchesReq body)
  | errors => inl (MedusaError INVALID_DATA (String.concat ", " errors))
  end.

(** [{...toCreate, created_by: userId}] *)
Definition with_created_by (toCreate : CreateInput.t) (userId : option string)
  : CreateInput.t :=
  {| CreateInput.type := CreateInput.type toCreate;
     CreateInput.context := CreateInput.context toCreate;
     CreateInput.dry_run := CreateInput.dry_run toCreate;
     CreateInput.created_by := userId |}.

(** [req.user.id ?? req.user.userId] *)
Definition user_id_of (user : User.t) : option string :=
  match User.id user with
  | Some id => Some id
  | None => User.userId user
  end.

Section Handler.
Context {St : Type}.
Variable C : Container St.

Local Open Scope handler_scope.

(** [req.scope.resolve(`batchType_${type}`)]: the registered strategy,
    or the container's resolution error. *)
Definition resolve_strategy (key : string) : M St Call (Strategy St) :=
  fun s =>
    match strategies C key with
    | Some strategy => (inr strategy, s, [Resolve key])
    | None => (inl (ResolutionError key), s, [Resolve key])
    end.

Definition prepare (key : string) (strategy : Strategy St) (arg : PrepareArg)
  : M St Call CreateInput.t :=
  call (PrepareBatchJobForProcessing key arg)
       (prepareBatchJobForProcessing strategy arg).

(** A call whose promise is not awaited: the call is made, its outcome
    does not reach the handler. *)
Definition not_awaited {A} (m : M St Call A) : M St Call unit :=
  fun s => let '(_, s1, t) := m s in (inr tt, s1, t).

(** [const userId = req.user.id ?? req.user.userId] *)
Definition userId (req : Request.t) : M St Call (option string) :=
  match Request.user req with
  | None => throw (TypeError "Cannot read properties of undefined (reading 'id')")
  | Some user => ret (user_id_of user)
  end.

(** The handler (default export), lines 68-95. *)
Definition create_batch_job (req : Request.t) : M St Call Response.t :=
  match validate_AdminPostBatchesReq (Request.body req) with
  | inl e => throw e
  | inr validated =>
      let key := "batchType_" +:+ AdminPostBatchesReq.type validated in
      batchStrategy <- resolve_strategy key ;;
      toCreate <- prepare key batchStrategy (OfRequest validated) ;;
      userId <- userId req ;;
      pure_call (Resolve "batchJobService") tt ;;;
      batch_job <-
        call (BatchJobService_create (with_created_by toCreate userId))
             (batchJobService_create C (with_created_by toCreate userId)) ;;
      batchStrategy <- resolve_strategy key ;;
      not_awaited (prepare key batchStrategy (OfId (BatchJob.id batch_job))) ;;;
      ret {| Response.status := 201; Response.batch_job := batch_job |}
  end.
End Handler.

Definition is_resolve_of (key : string) (c : Call) : bool :=
  match c with Resolve k => String.eqb k key | _ => false end.

Definition is_prepare (c : Call) : bool :=
  match c with PrepareBatchJobForProcessing _ _ => true | _ => false end.

Definition count (p : Call -> bool) (t : list Call) : nat :=
  length (List.filter p t).

End BatchJobs.

(** ** Sample data *)

Module Sample.
Import MemStore.

Definition r1 : Region.t :=
  {| Region.id := "r1"; Region.countries := ["us"]; Region.currency_code := "usd" |}.
Definition r2 : Region.t :=
  {| Region.id := "r2"; Region.countries := ["dk"]; Region.currency_code := "dkk" |}.

Definition c1 : Customer.t := {| Customer.id := "c1"; Customer.email := "a@b.com" |}.

Definition v1 : Variant :=
  {| title := "Shirt"; prices := {[ "r1" := 1000 ]}; sales_channels := ["sc1"] |}.
Definition v2 : Variant :=
  {| title := "Hat"; prices := {[ "r1" := 500 ]}; sales_channels := ["sc1"] |}.
Definition v3 : Variant :=
  {| title := "Socks"; prices := {[ "r1" := 200 ]}; sales_channels := [] |}.

(** Two regions, one customer, three variants, no cart yet. *)
Definition db0 : DB :=
  {| regions := [r1; r2];
     customers := {[ "c1" := c1 ]};
     variants := {[ "v1" := v1; "v2" := v2; "v3" := v3 ]};
     carts := ∅;
     next_cart := 0 |}.

(** The same store without any region. *)
Definition db_no_region : DB :=
  {| regions := []; customers := customers db0; variants := variants db0;
     carts := ∅; next_cart := 0 |}.

Definition item (variant_id : string) (quantity : Z) : Item.t :=
  {| Item.variant_id := variant_id; Item.quantity := quantity |}.

Definition body (region_id : option string) (items : option (list Item.t))
           (context : JsValue) : StorePostCartReq.t :=
  {| StorePostCartReq.region_id := region_id;
     StorePostCartReq.country_code := Some "US";
     StorePostCartReq.items := items;
     StorePostCartReq.context := context;
     StorePostCartReq.sales_channel_id := JUndefined |}.

Definition anonymous (b : StorePostCartReq.t) : Request.t :=
  {| Request.validatedBody := b; Request.user := None;
     Request.clientIp := JStr "::1"; Request.user_agent := JStr "Chrome" |}.

Definition as_customer (customer_id : string) (b : StorePostCartReq.t) : Request.t :=
  {| Request.validatedBody := b;
     Request.user := Some {| User.id := None; User.userId := None;
                             User.customer_id := Some customer_id |};
     Request.clientIp := JStr "::1"; Request.user_agent := JStr "Chrome" |}.

Definition flags_off : string -> bool := fun _ => false.
Definition flags_on : string -> bool := fun key => String.eqb key "sales_channels".

Definition fields : list string := ["id"; "region_id"; "email"].
Definition relations : list string := ["items"; "region"].

(** The handler over the in-memory store. *)
Definition run (flags : string -> bool) (req : Request.t) (d : DB) :=
  create_cart (services flags) fields relations req d.

(** No [region_id], no items, no context. *)
Definition req_default : Request.t := anonymous (body None None JUndefined).

(** Two items that can be generated. *)
Definition two_items : list Item.t := [item "v1" 2; item "v2" 1].
Definition req_two_items : Request.t :=
  anonymous (body None (Some two_items) JUndefined).

(** Three items; the second names a variant that does not exist. *)
Definition three_items : list Item.t := [item "v1" 2; item "v9" 1; item "v3" 1].
Definition req_three_items : Request.t :=
  anonymous (body None (Some three_items) JUndefined).

(** The attributes built for that request in region [r1]. *)
Definition toCreate_three : CartCreateProps.t := build_toCreate req_three_items r1 None.

(** An explicit region id that no region has. *)
Definition req_unknown_region : Request.t :=
  anonymous (body (Some "r9") None JUndefined).

(** The authenticated customer [c1], no items. *)
Definition req_customer : Request.t := as_customer "c1" (body None None JUndefined).

(** A caller context that names [ip] and one more key. *)
Definition caller_context : gmap string JsValue :=
  {[ "ip" := JStr "10.0.0.1"; "note" := JStr "gift" ]}.
Definition req_context : Request.t :=
  anonymous (body None None (JObj caller_context)).

(** Raw request bodies for the validation pass. *)
Definition raw (body : gmap string JsValue) : RawRequest.t :=
  {| RawRequest.body := body; RawRequest.user := None;
     RawRequest.clientIp := JStr "::1"; RawRequest.user_agent := JStr "Chrome" |}.

Definition item_zero_quantity : gmap string JsValue :=
  {[ "variant_id" := JStr "v1"; "quantity" := JNum 0%Q ]}.
Definition item_without_variant : gmap string JsValue :=
  {[ "quantity" := JNum 1%Q ]}.

Definition body_zero_quantity : gmap string JsValue :=
  {[ "items" := JArr [JObj item_zero_quantity] ]}.
Definition body_without_variant : gmap string JsValue :=
  {[ "items" := JArr [JObj item_without_variant] ]}.

(** A container for batch jobs: one strategy, which accepts a validated
    request and rejects anything else, and counts its invocations in the
    state; a batch-job service that always creates the job [batch_1]. *)
Definition export_strategy : BatchJobs.Strategy nat :=
  {| BatchJobs.prepareBatchJobForProcessing := fun arg n =>
       match arg with
       | BatchJobs.OfRequest v =>
           (inr {| BatchJobs.CreateInput.type := BatchJobs.AdminPostBatchesReq.type v;
                   BatchJobs.CreateInput.context := BatchJobs.AdminPostBatchesReq.context v;
                   BatchJobs.CreateInput.dry_run := BatchJobs.AdminPostBatchesReq.dry_run v;
                   BatchJobs.CreateInput.created_by := None |}, Datatypes.S n)
       | BatchJobs.OfId _ =>
           (inl (MedusaError INVALID_DATA "not a batch job"), Datatypes.S n)
       end |}.

Definition job_of (toCreate : BatchJobs.CreateInput.t) : BatchJobs.BatchJob.t :=
  {| BatchJobs.BatchJob.id := "batch_1";
     BatchJobs.BatchJob.type := BatchJobs.CreateInput.type toCreate;
     BatchJobs.BatchJob.context := BatchJobs.CreateInput.context toCreate;
     BatchJobs.BatchJob.dry_run := BatchJobs.CreateInput.dry_run toCreate;
     BatchJobs.BatchJob.created_by := BatchJobs.CreateInput.created_by toCreate |}.

Definition container : BatchJobs.Container nat :=
  {| BatchJobs.strategies := fun key =>
       if String.eqb key "batchType_product-export" then Some export_strategy else None;
     BatchJobs.batchJobService_create := fun toCreate n => (inr (job_of toCreate), n) |}.

Definition admin : User.t :=
  {| User.id := Some "usr_1"; User.userId := None; User.customer_id := None |}.

Definition batch_request : BatchJobs.Request.t :=
  {| BatchJobs.Request.body :=
       {[ "type" := JStr "product-export"; "context" := JObj ∅ ]};
     BatchJobs.Request.user := Some admin |}.

Definition batch_validated : BatchJobs.AdminPostBatchesReq.t :=
  {| BatchJobs.AdminPostBatchesReq.type := "product-export";
     BatchJobs.AdminPostBatchesReq.context := ∅;
     BatchJobs.AdminPostBatchesReq.dry_run := false |}.

(** What the strategy prepares for [batch_validated]. *)
Definition batch_toCreate : BatchJobs.CreateInput.t :=
  {| BatchJobs.CreateInput.type := "product-export";
     BatchJobs.CreateInput.context := ∅;
     BatchJobs.CreateInput.dry_run := false;
     BatchJobs.CreateInput.created_by := None |}.
End Sample.

(** ** The store router: CORS options (first part of [store/index.js]) *)

(** [String.prototype.split] with a one-character separator: the pieces
    between the separators, in order; an empty string gives one empty
    piece. *)
Fixpoint split_on (sep : ascii) (s : string) : list string :=
  match s with
  | EmptyString => [EmptyString]
  | String c r =>
      if Ascii.eqb c sep then EmptyString :: split_on sep r
      else match split_on sep r with
           | [] => [String c EmptyString]
           | piece :: pieces => String c piece :: pieces
           end
  end.

(** The part of the project configuration the store router reads. *)
Module Config.
Record t := { store_cors : option string }.
End Config.

(** [const storeCors = config.store_cors || ""], line 25. *)
Definition storeCors (config : Config.t) : string :=
  default "" (truthy (Config.store_cors config)).

Module CorsOptions.
Record t := { origin : list string; credentials : bool }.
End CorsOptions.

(** The options of the [cors] middleware of the store router, lines 27-30. *)
Definition cors_options (config : Config.t) : CorsOptions.t :=
  {| CorsOptions.origin := split_on "," (storeCors config);
     CorsOptions.credentials := true |}.

(** The characters of a string. *)
Definition chars (s : string) : list ascii := String.list_ascii_of_string s.

(** ** [DELETE /admin/gift-cards/:id] (first part of [delete-gift-card.ts]) *)

Module GiftCards.

Inductive Call :=
| Resolve (key : string)
| GiftCardService_delete (id : string).

Module Response.
Record t := { id : string; object : string; deleted : bool }.
End Response.

Section Handler.
Context {St : Type}.
(** [giftCardService.delete], resolved from the request scope. *)
Variable giftCardService_delete : string -> St -> (Error + unit) * St.

Local Open Scope handler_scope.

(** The handler (default export), lines 29-40; [id] is [req.params.id]. *)
Definition delete_gift_card (id : string) : M St Call Response.t :=
  pure_call (Resolve "giftCardService") tt ;;;
  call (GiftCardService_delete id) (giftCardService_delete id) ;;;
  ret {| Response.id := id; Response.object := "gift-card"; Response.deleted := true |}.
End Handler.

End GiftCards.

(** ** More ways to read a trace *)

Definition is_tx_marker (c : Call) : bool :=
  match c with
  | Transaction_start | Transaction_commit | Transaction_rollback => true
  | _ => false
  end.

(** Calls made for the customer lookup. *)
Definition is_customer_call (c : Call) : bool :=
  match c with
  | Resolve key => String.eqb key "customerService"
  | CustomerService_retrieve _ => true
  | _ => false
  end.

(** Outside the transaction: neither a persistence call nor a marker. *)
Definition outside_call (c : Call) : bool :=
  negb (is_persistence c) && negb (is_tx_marker c).

(** [validated.items] as a list: no items when the field is absent. *)
Definition requested_items (req : Request.t) : list Item.t :=
  default [] (StorePostCartReq.items (Request.validatedBody req)).

(** What follows the generate calls inside the transaction: nothing, or the
    flag lookup and the attach. *)
Definition attach_tail {DB} (S : Services DB) (tail : list Call) : Prop :=
  tail = [] \/
  exists cart_id lis,
    tail = [FeatureFlagRouter_isFeatureEnabled "sales_channels";
            CartService_addLineItems cart_id lis
              (featureFlagRouter_isFeatureEnabled S "sales_channels")].


(** ** More sample data *)

Module SampleMore.
Import MemStore Sample.

(** The in-memory services with a cart read that always fails. *)
Definition services_unreadable : Services DB :=
  {| regionService_list := list_regions;
     customerService_retrieve := retrieve;
     cartService_create := create;
     lineItemService_generate := generate;
     cartService_addLineItems := addLineItems;
     cartService_retrieveWithTotals :=
       fun _ _ _ _ => inl (MedusaError DB_ERROR "connection lost");
     featureFlagRouter_isFeatureEnabled := flags_off;
     stored_carts := carts |}.

(** A store whose next cart id is already taken. *)
Definition db_taken : DB :=
  {| regions := [r1; r2]; customers := customers db0; variants := variants db0;
     carts := {[ "cart_0" := new_cart "cart_0" (build_toCreate req_default r2 None) ]};
     next_cart := 0 |}.

(** An explicit, existing region. *)
Definition req_region_r2 : Request.t := anonymous (body (Some "r2") None JUndefined).

(** A customer id that no customer has. *)
Definition req_unknown_customer : Request.t :=
  as_customer "c9" (body None None JUndefined).

(** The attributes built for the two-item request in region [r1]. *)
Definition toCreate_two : CartCreateProps.t := build_toCreate req_two_items r1 None.

(** A context that is not an object. *)
Definition req_number_context : Request.t :=
  anonymous (body None None (JNum 7%Q)).

(** A valid raw item. *)
Definition item_ok : gmap string JsValue :=
  {[ "variant_id" := JStr "v1"; "quantity" := JNum 2%Q ]}.

(** Batch requests: without a user, of an unknown type, without a type. *)
Definition batch_request_no_user : BatchJobs.Request.t :=
  {| BatchJobs.Request.body := BatchJobs.Request.body batch_request;
     BatchJobs.Request.user := None |}.

Definition batch_request_unknown_type : BatchJobs.Request.t :=
  {| BatchJobs.Request.body := {[ "type" := JStr "nothing"; "context" := JObj ∅ ]};
     BatchJobs.Request.user := Some admin |}.

Definition batch_request_invalid : BatchJobs.Request.t :=
  {| BatchJobs.Request.body := {[ "context" := JObj ∅ ]};
     BatchJobs.Request.user := Some admin |}.

(** A container whose batch-job service refuses to create. *)
Definition container_refusing : BatchJobs.Container nat :=
  {| BatchJobs.strategies := BatchJobs.strategies container;
     BatchJobs.batchJobService_create := fun _ n =>
       (inl (MedusaError DB_ERROR "insert failed"), n) |}.

(** A gift-card service over a set of ids: deleting removes the id, and
    deleting an id that is not there changes nothing. *)
Definition delete_from_set (id : string) (cards : gset string)
  : (Error + unit) * gset string :=
  (inr tt, cards ∖ {[ id ]}).

Definition config_two_origins : Config.t :=
  {| Config.store_cors := Some "http://localhost:8000, https://shop.example" |}.
End SampleMore.

(** * Proofs *)

(** ** Basic facts about the monad *)

Lemma surjective_pairing3 {A B C} (o : A * B * C) : o = (o.1.1, o.1.2, o.2).
Proof. by destruct o as [[??]?]. Defined.

Lemma classic_no_items validated : no_items validated \/ ~ no_items validated.
Proof.
  unfold no_items. destruct (StorePostCartReq.items validated) as [[|i l]|]; eauto.
  right. by intros [|].
Qed.

Lemma count_app p t1 t2 : count p (t1 ++ t2) = (count p t1 + count p t2)%nat.
Proof. unfold count. by rewrite List.filter_app, length_app. Qed.

Lemma count_zero_Forall p t :
  Forall (fun c => p c = false) t -> count p t = 0%nat.
Proof.
  unfold count. induction 1 as [|c t Hc _ IH]; simpl; [done|]. by rewrite Hc.
Qed.

Lemma bind_inv {St Ev A B} (m : M St Ev A) (k : A -> M St Ev B) s r s' t :
  bind m k s = (r, s', t) ->
  (exists e, m s = (inl e, s', t) /\ r = inl e) \/
  (exists a s1 t1 t2, m s = (inr a, s1, t1) /\ k a s1 = (r, s', t2) /\ t = t1 ++ t2).
Proof.
  unfold bind. destruct (m s) as [[[e|a] s1] t1].
  - intros [= <- <- <-]. left. eauto.
  - destruct (k a s1) as [[r2 s2] t2] eqn:Hk. intros [= <- <- <-].
    right. exists a, s1, t1, t2. eauto.
Qed.

Lemma bind_ok {St Ev A B} (m : M St Ev A) (k : A -> M St Ev B) s a s1 t1 :
  m s = (inr a, s1, t1) ->
  bind m k s = (let '(r, s2, t2) := k a s1 in (r, s2, t1 ++ t2)).
Proof. unfold bind. intros ->. by destruct (k a s1) as [[??]?]. Qed.

Lemma bind_fail {St Ev A B} (m : M St Ev A) (k : A -> M St Ev B) s e s1 t1 :
  m s = (inl e, s1, t1) -> bind m k s = (inl e, s1, t1).
Proof. unfold bind. by intros ->. Qed.

(** ** Facts about the cart handler, for any services *)

Section CreateCartFacts.
Context {DB : Type}.
Variable S : Services DB.
Variables defaultStoreCartFields defaultStoreCartRelations : list string.

Lemma resolve_region_pure validated regions (d : DB) r d' t :
  resolve_region validated regions d = (r, d', t) -> d' = d /\ t = [].
Proof.
  unfold resolve_region, ret, throw.
  destruct (isDefined _); [|destruct regions]; by intros [= <- <- <-].
Qed.

(** The steps before the transaction never write, and only make calls of
    the preparing kind. *)
Lemma prepare_reads_only req d r d1 t1 :
  prepare S req d = (r, d1, t1) ->
  d1 = d /\ Forall (fun c => is_prepare_call c = true) t1.
Proof.
  unfold prepare, resolve, pure_call, read, bind, ret, throw.
  destruct (regionService_list S d) as [e|regions]; simpl.
  { intros [= <- <- <-]. split; [done|]. repeat constructor. }
  destruct (resolve_region _ regions d) as [[rr dr] tr] eqn:Hr.
  apply resolve_region_pure in Hr as [-> ->].
  destruct rr as [e|[region|]]; simpl.
  - intros [= <- <- <-]. split; [done|]. repeat constructor.
  - destruct (truthy (user_customer_id req)) as [cid|]; simpl.
    + destruct (customerService_retrieve S cid d) as [e|c]; simpl;
        intros [= <- <- <-]; (split; [done|]); repeat constructor.
    + intros [= <- <- <-]. split; [done|]. repeat constructor.
  - intros [= <- <- <-]. split; [done|]. repeat constructor.
Qed.

(** When the preparing steps succeed, the region is the resolved one and
    [toCreate] is built from it and from the fetched customer. *)
Lemma prepare_ok_inv req d region toCreate d1 t1 :
  prepare S req d = (inr (region, toCreate), d1, t1) ->
  exists regions customer,
    regionService_list S d = inr regions /\
    resolve_region (Request.validatedBody req) regions d = (inr (Some region), d, []) /\
    customer_fetched S req d customer /\
    toCreate = build_toCreate req region customer.
Proof.
  unfold prepare, customer_fetched, resolve, pure_call, read, bind, ret, throw.
  destruct (regionService_list S d) as [e|regions]; simpl; [done|].
  destruct (resolve_region _ regions d) as [[rr dr] tr] eqn:Hr.
  destruct (resolve_region_pure _ _ _ _ _ _ Hr) as [-> ->].
  destruct rr as [e|[rg|]]; simpl; [done| |done].
  destruct (truthy (user_customer_id req)) as [cid|]; simpl.
  - destruct (customerService_retrieve S cid d) as [e|c] eqn:Hc; simpl; [done|].
    intros [= <- <- <- <-]. exists regions, (Some c). eauto 10.
  - intros [= <- <- <- <-]. exists regions, None. eauto 10.
Qed.

(** The loop calls [generate] for the items in input order and stops at
    the first failure. *)
Lemma generate_loop_trace req region items acc d r d' t :
  generate_loop S req region items acc d = (r, d', t) ->
  exists n, t = map (generate_call req region) (take n items) /\
            (forall lis, r = inr lis -> n = length items).
Proof.
  revert acc d t. induction items as [|item rest IH]; intros acc d t; simpl.
  - unfold ret. intros [= <- <- <-]. exists 0%nat. split; [done|]. done.
  - intros H. apply bind_inv in H as [(e & Hc & ->)|(li & s1 & t1 & t2 & Hc & Hk & ->)].
    + unfold call in Hc. destruct (lineItemService_generate _ _ _ _ _ _) as [r1 s1].
      simplify_eq. exists 1%nat. split; [|done].
      done.
    + unfold call in Hc. destruct (lineItemService_generate _ _ _ _ _ _) as [r1 s1'].
      simplify_eq.
      destruct (IH _ _ _ Hk) as (n & -> & Hn).
      exists (Datatypes.S n). split; [done|].
      intros lis Hl. by rewrite (Hn lis Hl).
Qed.

Lemma generate_loop_only_generates req region items acc d r d' t :
  generate_loop S req region items acc d = (r, d', t) ->
  Forall (fun c => is_generate c = true) t.
Proof.
  intros H. apply generate_loop_trace in H as (n & -> & _).
  apply Forall_forall. intros c Hc. apply list_elem_of_fmap in Hc as (it & -> & _). done.
Qed.

Lemma transaction_fail {A} (work : M DB Call A) d e d2 t :
  work d = (inl e, d2, t) ->
  transaction work d = (inl e, d, Transaction_start :: t ++ [Transaction_rollback]).
Proof. unfold transaction. by intros ->. Qed.

Lemma transaction_ok {A} (work : M DB Call A) d a d2 t :
  work d = (inr a, d2, t) ->
  transaction work d = (inr a, d2, Transaction_start :: t ++ [Transaction_commit]).
Proof. unfold transaction. by intros ->. Qed.

(** A failure inside the transaction is the failure of the request, and
    the database is the one the request started from. *)
Lemma create_cart_tx_fail req d region toCreate d1 t1 e d2 t2 :
  prepare S req d = (inr (region, toCreate), d1, t1) ->
  transaction_callback S req region toCreate d1 = (inl e, d2, t2) ->
  create_cart S defaultStoreCartFields defaultStoreCartRelations req d
  = (inl e, d, t1 ++ Transaction_start :: t2 ++ [Transaction_rollback]).
Proof.
  intros Hp Hcb. destruct (prepare_reads_only _ _ _ _ _ Hp) as [-> _].
  unfold create_cart. rewrite (bind_ok _ _ _ _ _ _ Hp).
  by rewrite (bind_fail _ _ _ _ _ _ (transaction_fail _ _ _ _ _ Hcb)).
Qed.

(** A request without items: the callback is the [create] call alone. *)
Lemma transaction_callback_no_items req region toCreate d :
  no_items (Request.validatedBody req) ->
  transaction_callback S req region toCreate d
  = (let '(r, d1) := cartService_create S toCreate d in
     (r, d1, [CartService_create toCreate])).
Proof.
  intros Hn. unfold transaction_callback, bind, call, ret.
  destruct (cartService_create S toCreate d) as [[e|c] d1]; [done|].
  by destruct Hn as [-> | ->].
Qed.

Section WithContracts.
Context `{!ServicesOK S}.

(** With the [generate] contract: a loop that completes has pushed one
    line item per requested item, in order, each for the variant and
    quantity asked, and has not touched the cart table. *)
Lemma generate_loop_ok req region items acc d lis d' t :
  generate_loop S req region items acc d = (inr lis, d', t) ->
  exists generated,
    lis = acc ++ generated /\
    Forall2 answers items generated /\
    stored_carts S d' = stored_carts S d /\
    t = map (generate_call req region) items.
Proof.
  revert acc d t. induction items as [|item rest IH]; intros acc d t; simpl.
  - unfold ret. intros [= <- <- <-]. exists []. by rewrite app_nil_r.
  - intros H. apply bind_inv in H as [(e & _ & [=])|(li & s1 & t1 & t2 & Hc & Hk & ->)].
    unfold call in Hc.
    destruct (lineItemService_generate _ _ _ _ _ _) as [r1 s1'] eqn:Hg.
    simplify_eq. apply generate_spec in Hg as (Hs & Hv & Hq).
    destruct (IH _ _ _ Hk) as (gen & -> & HF & Hs' & ->).
    exists (li :: gen). rewrite <- app_assoc. repeat split; [|congruence].
    by constructor.
Qed.

(** A successful request, read backwards: the preparing steps gave a
    region and [toCreate]; the cart created from [toCreate] under a
    fresh id is what is stored and what is returned, with the generated
    line items [lis]; the trace is the sequence of calls of the source,
    without items and with items. *)
Lemma create_cart_ok_inv req d resp d' tr :
  create_cart S defaultStoreCartFields defaultStoreCartRelations req d
  = (inr resp, d', tr) ->
  exists region toCreate t1 id lis,
    prepare S req d = (inr (region, toCreate), d, t1) /\
    Response.status resp = 200 /\
    CartWithTotals.cart (Response.cart resp) = with_items (new_cart id toCreate) lis /\
    stored_carts S d !! id = None /\
    stored_carts S d' = <[id := with_items (new_cart id toCreate) lis]> (stored_carts S d) /\
    (no_items (Request.validatedBody req) ->
     lis = [] /\
     tr = t1 ++ [Transaction_start; CartService_create toCreate; Transaction_commit;
                 CartService_retrieveWithTotals id defaultStoreCartFields
                                                defaultStoreCartRelations]) /\
    (forall items,
        StorePostCartReq.items (Request.validatedBody req) = Some items ->
        items <> [] ->
        Forall2 answers items lis /\
        tr = t1 ++ [Transaction_start; CartService_create toCreate]
                ++ map (generate_call req region) items
                ++ [FeatureFlagRouter_isFeatureEnabled "sales_channels";
                    CartService_addLineItems
                      id lis (featureFlagRouter_isFeatureEnabled S "sales_channels");
                    Transaction_commit;
                    CartService_retrieveWithTotals id defaultStoreCartFields
                                                   defaultStoreCartRelations]).
Proof.
  unfold create_cart. intros H.
  apply bind_inv in H as [(e & _ & [=])|([region toCreate] & d1 & t1 & t2 & Hp & Hk & ->)].
  destruct (prepare_reads_only _ _ _ _ _ Hp) as [-> _].
  apply bind_inv in Hk as [(e & _ & [=])|(cart & d2 & t3 & t4 & Htx & Hk & ->)].
  unfold transaction in Htx.
  destruct (transaction_callback S req region toCreate d) as [[[e|c] dd] tt] eqn:Hcb;
    [done|]. simplify_eq.
  apply bind_inv in Hk as [(e & _ & [=])|(ct & d3 & t5 & t6 & Hr & Hk & ->)].
  unfold read in Hr. unfold ret in Hk.
  injection Hr as Hret ? ?. injection Hk as ? ? ?. subst.
  exists region, toCreate, t1, (Cart.id cart).
  assert (Hcases : no_items (Request.validatedBody req) \/
                   exists items, StorePostCartReq.items (Request.validatedBody req)
                                 = Some items /\ items <> []).
  { unfold no_items.
    destruct (StorePostCartReq.items _) as [[|i l]|]; eauto. }
  destruct Hcases as [Hno | (items & Hitems & Hne)].
  - (* no items: the callback is the create call *)
    rewrite (transaction_callback_no_items _ _ _ _ Hno) in Hcb.
    destruct (cartService_create S toCreate d) as [rc dc] eqn:Hcreate. simplify_eq.
    destruct (create_spec _ _ _ _ Hcreate) as (Hfresh & Hnew & Hstore).
    assert (Hsame : with_items (new_cart (Cart.id cart) toCreate) [] = cart)
      by (by rewrite Hnew at 2).
    destruct (retrieve_spec (Cart.id cart) defaultStoreCartFields
                defaultStoreCartRelations d' cart) as (ct' & Hr' & Hct).
    { rewrite Hstore. apply lookup_insert_eq. }
    exists []. rewrite Hsame. rewrite Hr' in Hret. injection Hret as <-.
    split_and!; try done.
    intros items Hi Hne. destruct Hno as [Hno|Hno]; congruence.
  - (* items: create, the loop, the flag, the batch attach *)
    unfold transaction_callback in Hcb. rewrite Hitems in Hcb.
    assert (Hlen : negb (Nat.eqb (length items) 0) = true) by (by destruct items).
    rewrite Hlen in Hcb.
    apply bind_inv in Hcb as [(e & _ & [=])|(c0 & dc & tc & tk & Hc & Hk & ->)].
    unfold call in Hc.
    destruct (cartService_create S toCreate d) as [rc dc'] eqn:Hcreate. simplify_eq.
    destruct (create_spec _ _ _ _ Hcreate) as (Hfresh & Hnew & Hstore).
    apply bind_inv in Hk as [(e & _ & [=])|(lis & dg & tg & tk2 & Hg & Hk & ->)].
    apply generate_loop_ok in Hg as (gen & -> & HF & Hsg & ->).
    apply bind_inv in Hk as [(e & _ & [=])|(fl & df & tf & tk3 & Hf & Hk & ->)].
    unfold pure_call in Hf. simplify_eq.
    apply bind_inv in Hk as [(e & _ & [=])|(u & da & ta & tk4 & Ha & Hk & ->)].
    unfold call in Ha.
    destruct (cartService_addLineItems _ _ _ _ _) as [ra da'] eqn:Hadd.
    unfold ret in Hk. simplify_eq.
    destruct (addLineItems_spec _ _ _ _ _ _ Hadd) as (c' & Hlook & Hstore').
    rewrite Hsg, Hstore, lookup_insert_eq in Hlook. injection Hlook as <-.
    rewrite Hsg, Hstore, insert_insert_eq in Hstore'.
    match type of Hstore' with
    | _ = <[_ := with_items ?c _]> _ =>
        assert (Hsame : with_items c (Cart.items c ++ [] ++ gen)
                        = with_items (new_cart (Cart.id c) toCreate) gen)
          by (rewrite Hnew at 1 2; done);
        rewrite Hsame in Hstore';
        destruct (retrieve_spec (Cart.id c) defaultStoreCartFields
                    defaultStoreCartRelations d'
                    (with_items (new_cart (Cart.id c) toCreate) gen))
          as (ct' & Hr' & Hct);
          [rewrite Hstore'; apply lookup_insert_eq|]
    end.
    exists gen. rewrite Hr' in Hret. injection Hret as <-.
    split_and!; try done.
    + intros [Hno|Hno]; congruence.
    + intros items' Hi _. assert (items' = items) as -> by congruence.
      split; [done|]. simpl. rewrite <- !app_assoc. done.
Qed.
End WithContracts.
End CreateCartFacts.

(** ** The in-memory store meets the contracts *)

Lemma memstore_ok flags : ServicesOK (MemStore.services flags).
Proof.
  split; simpl.
  - intros toCreate d c d'. unfold MemStore.create.
    destruct (MemStore.carts d !! _) eqn:Hl; [done|].
    intros [= <- <-]. simpl. done.
  - intros v r q ctx d li d'. unfold MemStore.generate.
    destruct (MemStore.variants d !! v) as [var|]; [|done].
    destruct (MemStore.prices var !! r); [|done].
    destruct (q <? 1); [done|]. by intros [= <- <-].
  - intros cart_id lis b d u d'. unfold MemStore.addLineItems.
    destruct (MemStore.carts d !! cart_id) as [c|]; [|done].
    destruct (_ && _); [done|]. intros [= <- <-]. by exists c.
  - intros cart_id sel rel d c Hc. unfold MemStore.retrieveWithTotals.
    rewrite Hc. by eexists.
Qed.

(** ** Properties of cart creation *)

Lemma answers_pairs items lis :
  Forall2 answers items lis -> line_item_pairs lis = requested_pairs items.
Proof.
  induction 1 as [|i li items lis [Hv Hq] _ IH]; [done|].
  unfold line_item_pairs, requested_pairs in *. simpl. by rewrite Hv, Hq, IH.
Qed.

Section CreateCartClaims.
Context {DB : Type}.
Variable S : Services DB.
Context `{!ServicesOK S}.
Variables defaultStoreCartFields defaultStoreCartRelations : list string.

Abbreviation handler := (create_cart S defaultStoreCartFields defaultStoreCartRelations).
Abbreviation response_cart resp := (CartWithTotals.cart (Response.cart resp)).

(** C2. Without a [region_id]: when the region listing starts with a
    region [r], a created cart is stored and returned with the id of [r]
    as its region; when the listing is empty, the request fails with the
    missing-region error after the listing alone, the database untouched
    and no persistence call made. *)
Theorem default_region_is_first_or_fails req d :
  StorePostCartReq.region_id (Request.validatedBody req) = None ->
  (forall r rs resp d' tr,
      regionService_list S d = inr (r :: rs) ->
      handler req d = (inr resp, d', tr) ->
      Cart.region_id (response_cart resp) = Region.id r /\
      stored_carts S d' !! Cart.id (response_cart resp) = Some (response_cart resp)) /\
  (regionService_list S d = inr [] ->
   handler req d = (inl missing_region_error, d, opening_calls)).
Proof.
  intros Hnone. split.
  - intros r rs resp d' tr Hlist Hrun.
    apply create_cart_ok_inv in Hrun
      as (region & toCreate & t1 & id & lis & Hp & _ & Hcart & _ & Hstore & _); [|done].
    apply prepare_ok_inv in Hp as (regions & customer & Hlist' & Hres & _ & ->).
    rewrite Hlist in Hlist'. injection Hlist' as <-.
    unfold resolve_region in Hres. rewrite Hnone in Hres. simpl in Hres.
    injection Hres as <-. rewrite Hcart. split; [done|].
    rewrite Hstore. apply lookup_insert_eq.
  - intros Hlist. unfold create_cart, prepare, resolve, bind, pure_call, read.
    rewrite Hlist. unfold resolve_region. rewrite Hnone. done.
Qed.

(** C3. A successful request with items: the returned cart carries one
    line item per requested item, in request order, for the requested
    variant and quantity; the calls were one [generate] per item in input
    order, then the flag lookup and a single [addLineItems] with all the
    generated items, all inside the transaction. *)
Theorem line_items_follow_request req d items resp d' tr :
  StorePostCartReq.items (Request.validatedBody req) = Some items ->
  items <> [] ->
  handler req d = (inr resp, d', tr) ->
  line_item_pairs (Cart.items (response_cart resp)) = requested_pairs items /\
  length (Cart.items (response_cart resp)) = length items /\
  exists region toCreate t1,
    prepare S req d = (inr (region, toCreate), d, t1) /\
    Forall (fun c => is_prepare_call c = true) t1 /\
    tr = t1 ++ [Transaction_start; CartService_create toCreate]
            ++ map (generate_call req region) items
            ++ [FeatureFlagRouter_isFeatureEnabled "sales_channels";
                CartService_addLineItems
                  (Cart.id (response_cart resp)) (Cart.items (response_cart resp))
                  (featureFlagRouter_isFeatureEnabled S "sales_channels");
                Transaction_commit;
                CartService_retrieveWithTotals
                  (Cart.id (response_cart resp)) defaultStoreCartFields
                  defaultStoreCartRelations].
Proof.
  intros Hitems Hne Hrun.
  apply create_cart_ok_inv in Hrun
    as (region & toCreate & t1 & id & lis & Hp & _ & Hcart & _ & _ & _ & Hwith); [|done].
  destruct (Hwith items Hitems Hne) as [HF ->]. rewrite Hcart. simpl.
  split; [by apply answers_pairs|]. split; [symmetry; by eapply Forall2_length|].
  exists region, toCreate, t1. split; [done|]. split; [|done].
  by destruct (prepare_reads_only _ _ _ _ _ _ Hp).
Qed.

(** C5. On a successful creation every key of the caller's context is in
    the cart's context with the caller's value, and [ip] and [user_agent]
    are there with the automatically populated values when the caller's
    context has no key of that name. *)
Theorem context_caller_wins req d resp d' tr :
  handler req d = (inr resp, d', tr) ->
  (forall k v,
      spread (StorePostCartReq.context (Request.validatedBody req)) !! k = Some v ->
      Cart.context (response_cart resp) !! k = Some v) /\
  (spread (StorePostCartReq.context (Request.validatedBody req)) !! "ip" = None ->
   Cart.context (response_cart resp) !! "ip" = Some (Request.clientIp req)) /\
  (spread (StorePostCartReq.context (Request.validatedBody req)) !! "user_agent" = None ->
   Cart.context (response_cart resp) !! "user_agent" = Some (Request.user_agent req)) /\
  is_Some (Cart.context (response_cart resp) !! "ip") /\
  is_Some (Cart.context (response_cart resp) !! "user_agent").
Proof.
  intros Hrun.
  apply create_cart_ok_inv in Hrun
    as (region & toCreate & t1 & id & lis & Hp & _ & Hcart & _); [|done].
  apply prepare_ok_inv in Hp as (regions & customer & _ & _ & _ & ->).
  rewrite Hcart. simpl. unfold merge_objects, reqContext.
  set (caller := spread _).
  assert (Hip : (<["user_agent" := Request.user_agent req]> {["ip" := Request.clientIp req]}
                 : gmap string JsValue) !! "ip" = Some (Request.clientIp req))
    by (by rewrite lookup_insert_ne, lookup_singleton_eq).
  split_and!.
  - intros k v Hk. by apply lookup_union_Some_l.
  - intros Hk. by rewrite lookup_union_r.
  - intros Hk. rewrite lookup_union_r by done. apply lookup_insert_eq.
  - destruct (caller !! "ip") as [v|] eqn:Hk.
    + exists v. by apply lookup_union_Some_l.
    + rewrite lookup_union_r by done. rewrite Hip. by eexists.
  - destruct (caller !! "user_agent") as [v|] eqn:Hk.
    + exists v. by apply lookup_union_Some_l.
    + rewrite lookup_union_r by done. rewrite lookup_insert_eq. by eexists.
Qed.

(** C8. With an authenticated customer, a created cart has the id and the
    email of the customer record fetched by [req.user.customer_id] from the
    customer service; without requested items it has no line items. *)
Theorem customer_from_refetched_record req d customer_id resp d' tr :
  truthy (user_customer_id req) = Some customer_id ->
  handler req d = (inr resp, d', tr) ->
  exists customer,
    customerService_retrieve S customer_id d = inr customer /\
    Cart.customer_id (response_cart resp) = Some (Customer.id customer) /\
    Cart.email (response_cart resp) = Some (Customer.email customer) /\
    (no_items (Request.validatedBody req) -> Cart.items (response_cart resp) = []).
Proof.
  intros Hcid Hrun.
  apply create_cart_ok_inv in Hrun
    as (region & toCreate & t1 & id & lis & Hp & _ & Hcart & _ & _ & Hno & _); [|done].
  apply prepare_ok_inv in Hp as (regions & customer & _ & _ & Hcust & ->).
  unfold customer_fetched in Hcust. rewrite Hcid in Hcust.
  destruct Hcust as (c & Hc & ->). exists c. rewrite Hcart. simpl.
  split_and!; try done. intros Hn. by destruct (Hno Hn).
Qed.

(** C1. When the cart has been created inside the transaction and the
    generation of a line item or the batch attach then fails, the request
    fails with that error, the transaction is rolled back, the database is
    the one the request started from, and it holds no cart under the id of
    the cart that had been created (hence none of its line items). *)
Theorem failed_line_items_roll_back req d region toCreate d1 t1 items cart dc e :
  prepare S req d = (inr (region, toCreate), d1, t1) ->
  StorePostCartReq.items (Request.validatedBody req) = Some items ->
  items <> [] ->
  cartService_create S toCreate d = (inr cart, dc) ->
  line_items_fail S req region cart items dc e ->
  (exists t2, handler req d
              = (inl e, d,
                 t1 ++ Transaction_start :: CartService_create toCreate :: t2
                    ++ [Transaction_rollback])) /\
  stored_carts S d !! Cart.id cart = None.
Proof.
  intros Hp Hitems Hne Hcreate Hfail.
  destruct (prepare_reads_only _ _ _ _ _ _ Hp) as [-> _].
  split; [|by destruct (create_spec _ _ _ _ Hcreate)].
  assert (Hlen : negb (Nat.eqb (length items) 0) = true) by (by destruct items).
  assert (exists d2 t2, transaction_callback S req region toCreate d
                        = (inl e, d2, CartService_create toCreate :: t2))
    as (d2 & t2 & Hcb).
  { unfold transaction_callback. rewrite Hitems, Hlen.
    unfold bind at 1. unfold call at 1. rewrite Hcreate.
    destruct Hfail as [(d2 & t & Hg)|(lis & dg & t & da & Hg & Ha)].
    - rewrite (bind_fail _ _ _ _ _ _ Hg). by eexists _, _.
    - rewrite (bind_ok _ _ _ _ _ _ Hg). unfold bind, pure_call, call.
      rewrite Ha. by eexists _, _. }
  exists t2. exact (create_cart_tx_fail S _ _ _ _ _ _ _ _ _ _ _ Hp Hcb).
Qed.

(** An explicit [region_id] that no listed region has: [regions.find]
    yields [undefined]. *)
Lemma find_region_none rid (regions : list Region.t) :
  (forall r, r ∈ regions -> Region.id r <> rid) ->
  List.find (fun r => bool_decide (Some (Region.id r) = Some rid)) regions = None.
Proof.
  induction regions as [|r rs IH]; intros Hall; simpl; [done|].
  rewrite bool_decide_eq_false_2.
  - apply IH. intros r' Hr'. apply Hall. by right.
  - intros [= Heq]. by apply (Hall r); [left|].
Qed.

(** C4 (what the code does). An explicit [region_id] matching no region
    is not guarded: the first use of [region.id] throws a [TypeError], not
    a [MedusaError] of type [NOT_FOUND]; nothing has been written and no
    persistence call has been made. *)
Theorem unknown_region_id_type_error req d rid regions :
  StorePostCartReq.region_id (Request.validatedBody req) = Some rid ->
  regionService_list S d = inr regions ->
  Forall (fun r => Region.id r <> rid) regions ->
  handler req d
  = (inl (TypeError "Cannot read properties of undefined (reading 'id')"), d,
     opening_calls).
Proof.
  intros Hrid Hlist Hall.
  unfold create_cart, prepare, resolve, bind, pure_call, read.
  rewrite Hlist. unfold resolve_region. rewrite Hrid. simpl.
  rewrite Forall_forall in Hall. by rewrite (find_region_none _ _ Hall).
Qed.

(** Without items, whatever the outcome, the trace has no line-item call. *)
Lemma no_items_trace req d r d' tr :
  no_items (Request.validatedBody req) ->
  handler req d = (r, d', tr) ->
  Forall (fun c => line_item_call c = false) tr.
Proof.
  intros Hno Hrun. unfold create_cart in Hrun.
  apply bind_inv in Hrun
    as [(e & Hp & ->)|([region toCreate] & d1 & t1 & t2 & Hp & Hk & ->)].
  { destruct (prepare_reads_only _ _ _ _ _ _ Hp) as [_ HF].
    eapply Forall_impl; [exact HF|]. by intros []. }
  destruct (prepare_reads_only _ _ _ _ _ _ Hp) as [-> HF].
  apply Forall_app. split.
  { eapply Forall_impl; [exact HF|]. by intros []. }
  unfold transaction in Hk.
  apply bind_inv in Hk as [(e & Htx & ->)|(cart & d2 & t3 & t4 & Htx & Hk & ->)];
    rewrite (transaction_callback_no_items _ _ _ _ _ Hno) in Htx;
    destruct (cartService_create S toCreate d) as [[e'|c] dc]; simplify_eq.
  - repeat constructor.
  - unfold bind, read, ret in Hk.
    destruct (cartService_retrieveWithTotals _ _ _ _ _); simplify_eq;
      repeat constructor.
Qed.

(** C10. A request whose [items] is absent or empty makes no [generate]
    call, no [addLineItems] call and no feature-flag lookup, whatever the
    outcome; and once the preparing steps and [create] succeed, the
    transaction commits and the created cart, without line items, is
    stored and returned with status 200. *)
Theorem no_items_creates_empty_cart req d :
  no_items (Request.validatedBody req) ->
  (forall r d' tr,
      handler req d = (r, d', tr) ->
      count is_generate tr = 0%nat /\ count is_addLineItems tr = 0%nat /\
      count is_flag tr = 0%nat) /\
  (forall region toCreate d1 t1 cart dc,
      prepare S req d = (inr (region, toCreate), d1, t1) ->
      cartService_create S toCreate d = (inr cart, dc) ->
      exists ct,
        handler req d
        = (inr {| Response.status := 200; Response.cart := ct |}, dc,
           t1 ++ [Transaction_start; CartService_create toCreate; Transaction_commit;
                  CartService_retrieveWithTotals (Cart.id cart) defaultStoreCartFields
                                                 defaultStoreCartRelations]) /\
        CartWithTotals.cart ct = cart /\
        Cart.items cart = [] /\
        stored_carts S dc !! Cart.id cart = Some cart).
Proof.
  intros Hno. split.
  - intros r d' tr Hrun. pose proof (no_items_trace _ _ _ _ _ Hno Hrun) as HF.
    split_and!; apply count_zero_Forall; (eapply Forall_impl; [exact HF|]);
      intros c; unfold line_item_call; destruct c; simpl; done.
  - intros region toCreate d1 t1 cart dc Hp Hcreate.
    destruct (prepare_reads_only _ _ _ _ _ _ Hp) as [-> _].
    destruct (create_spec _ _ _ _ Hcreate) as (Hfresh & Hnew & Hstore).
    assert (Hlook : stored_carts S dc !! Cart.id cart = Some cart)
      by (rewrite Hstore; apply lookup_insert_eq).
    destruct (retrieve_spec (Cart.id cart) defaultStoreCartFields
                defaultStoreCartRelations dc cart Hlook) as (ct & Hr & Hct).
    exists ct. split_and!; [|done|by rewrite Hnew|done].
    unfold create_cart. rewrite (bind_ok _ _ _ _ _ _ Hp).
    assert (Htx : transaction (transaction_callback S req region toCreate) d
                  = (inr cart, dc,
                     [Transaction_start; CartService_create toCreate;
                      Transaction_commit])).
    { unfold transaction.
      rewrite (transaction_callback_no_items _ _ _ _ _ Hno), Hcreate. done. }
    rewrite (bind_ok _ _ _ _ _ _ Htx). unfold bind, read, ret. rewrite Hr.
    done.
Qed.

(** The calls of the transaction callback: calls that are neither a flag
    lookup nor an attach, then nothing more or the flag lookup followed by
    the one attach that receives its value. *)
Lemma callback_shape req region toCreate d r d' t :
  transaction_callback S req region toCreate d = (r, d', t) ->
  exists a m,
    t = a ++ m /\ Forall (fun c => quiet c = true) a /\
    flag_then_attach (featureFlagRouter_isFeatureEnabled S "sales_channels") m /\
    (no_items (Request.validatedBody req) -> m = []) /\
    (forall c, r = inr c -> ~ no_items (Request.validatedBody req) -> m <> []).
Proof.
  intros Hcb.
  destruct (classic_no_items (Request.validatedBody req)) as [Hno|Hyes].
  { rewrite (transaction_callback_no_items _ _ _ _ _ Hno) in Hcb.
    destruct (cartService_create S toCreate d) as [rc dc]. simplify_eq.
    exists [CartService_create toCreate], []. split_and!; try done.
    - repeat constructor.
    - by left. }
  unfold transaction_callback in Hcb.
  destruct (StorePostCartReq.items (Request.validatedBody req)) as [items|] eqn:Hitems;
    [|destruct Hyes; by left].
  assert (Hlen : negb (Nat.eqb (length items) 0) = true).
  { destruct items; [|done]. destruct Hyes. by right. }
  rewrite Hlen in Hcb.
  apply bind_inv in Hcb as [(e & Hc & ->)|(c0 & dc & tc & tk & Hc & Hk & ->)];
    unfold call in Hc; destruct (cartService_create S toCreate d) as [rc dc'];
    simplify_eq.
  { exists [CartService_create toCreate], []. split_and!; try done.
    - repeat constructor.
    - by left. }
  apply bind_inv in Hk as [(e & Hg & ->)|(lis & dg & tg & tk2 & Hg & Hk & ->)];
    pose proof (generate_loop_only_generates _ _ _ _ _ _ _ _ _ Hg) as HFg.
  { exists (CartService_create toCreate :: tk), []. split_and!; try done.
    - by rewrite app_nil_r.
    - constructor; [done|]. eapply Forall_impl; [exact HFg|]. by intros [].
    - by left. }
  unfold bind, pure_call, call, ret in Hk.
  destruct (cartService_addLineItems _ _ _ _ _) as [[e|u] da]; simplify_eq.
  - eexists (CartService_create toCreate :: tg), _. split_and!; try done.
    + constructor; [done|]. eapply Forall_impl; [exact HFg|]. by intros [].
    + right. by eexists _, _.
  - eexists (CartService_create toCreate :: tg), _. split_and!; try done.
    + constructor; [done|]. eapply Forall_impl; [exact HFg|]. by intros [].
    + right. by eexists _, _.
Qed.

Lemma handler_shape req d r d' tr :
  handler req d = (r, d', tr) ->
  exists a m b,
    tr = a ++ m ++ b /\
    Forall (fun c => quiet c = true) a /\ Forall (fun c => quiet c = true) b /\
    flag_then_attach (featureFlagRouter_isFeatureEnabled S "sales_channels") m /\
    (no_items (Request.validatedBody req) -> m = []) /\
    (forall resp, r = inr resp -> ~ no_items (Request.validatedBody req) -> m <> []).
Proof.
  intros Hrun. unfold create_cart in Hrun.
  assert (Hq : forall t, Forall (fun c => is_prepare_call c = true) t ->
                         Forall (fun c => quiet c = true) t).
  { intros t HF. eapply Forall_impl; [exact HF|]. by intros []. }
  apply bind_inv in Hrun
    as [(e & Hp & ->)|([region toCreate] & d1 & t1 & t2 & Hp & Hk & ->)];
    destruct (prepare_reads_only _ _ _ _ _ _ Hp) as [-> HF]; apply Hq in HF.
  { exists tr, [], []. rewrite !app_nil_r. split_and!; try done. by left. }
  apply bind_inv in Hk as [(e & Htx & ->)|(cart & d2 & t3 & t4 & Htx & Hk & ->)];
    unfold transaction in Htx;
    destruct (transaction_callback S req region toCreate d) as [[rc dc] tc] eqn:Hcb;
    destruct (callback_shape _ _ _ _ _ _ _ Hcb) as (a & m & -> & Ha & Hm & Hn & Hy);
    destruct rc as [e'|c]; simplify_eq.
  - exists (t1 ++ Transaction_start :: a), m, [Transaction_rollback].
    split_and!; try done.
    + by rewrite <- !app_assoc.
    + apply Forall_app. split; [done|]. by constructor.
    + repeat constructor.
  - unfold bind, read, ret in Hk.
    exists (t1 ++ Transaction_start :: a), m, (Transaction_commit :: t4).
    split_and!; try done.
    + simpl. by rewrite <- !app_assoc.
    + apply Forall_app. split; [done|]. by constructor.
    + destruct (cartService_retrieveWithTotals _ _ _ _ _); simplify_eq;
        repeat constructor.
    + intros resp _ Hyes. by eapply Hy.
Qed.

(** C7 (as the code has it). The flag is looked up once for each batch
    attach and only then: as many lookups as attach calls, at most one per
    request, always of the key [sales_channels]; the attach receives the
    flag's value as [validateSalesChannels]; a request without items makes
    no lookup, and a successful request with items makes exactly one. *)
Theorem flag_consulted_once_per_attach req d r d' tr :
  handler req d = (r, d', tr) ->
  count is_flag tr = count is_addLineItems tr /\
  (count is_flag tr <= 1)%nat /\
  (forall key, In (FeatureFlagRouter_isFeatureEnabled key) tr -> key = "sales_channels") /\
  (forall cart_id lis b,
      In (CartService_addLineItems cart_id lis b) tr ->
      b = featureFlagRouter_isFeatureEnabled S "sales_channels") /\
  (no_items (Request.validatedBody req) -> count is_flag tr = 0%nat) /\
  (forall resp, r = inr resp -> ~ no_items (Request.validatedBody req) ->
                count is_flag tr = 1%nat).
Proof.
  intros Hrun.
  destruct (handler_shape _ _ _ _ _ Hrun) as (a & m & b & -> & Ha & Hb & Hm & Hn & Hy).
  assert (Hqa : forall p, (forall c, p c = true -> quiet c = false) ->
                          forall l, Forall (fun c => quiet c = true) l -> count p l = 0%nat).
  { intros p Hp l Hl. apply count_zero_Forall. eapply Forall_impl; [exact Hl|].
    intros c Hc. simpl in Hc. destruct (p c) eqn:Hpc; [|done].
    apply Hp in Hpc. congruence. }
  assert (Hin : forall c l, Forall (fun c => quiet c = true) l -> In c l -> quiet c = true).
  { intros c l Hl Hc. rewrite Forall_forall in Hl. apply Hl. by apply list_elem_of_In. }
  rewrite !count_app.
  rewrite (Hqa is_flag) with (l := a) by (done || by intros []).
  rewrite (Hqa is_flag) with (l := b) by (done || by intros []).
  rewrite (Hqa is_addLineItems) with (l := a) by (done || by intros []).
  rewrite (Hqa is_addLineItems) with (l := b) by (done || by intros []).
  destruct Hm as [->|(cid & lis & ->)]; unfold count; simpl.
  - split_and!; try done.
    + lia.
    + intros key Hk. apply in_app_iff in Hk. destruct Hk as [Hk|Hk]; by apply Hin in Hk.
    + intros cid lis bb Hk. apply in_app_iff in Hk.
      destruct Hk as [Hk|Hk]; by apply Hin in Hk.
    + intros resp Hr Hyes. by destruct (Hy resp Hr Hyes).
  - split_and!; try done.
    + intros key Hk. apply in_app_iff in Hk.
      destruct Hk as [Hk|[Hk|[Hk|Hk]]]; try by apply Hin in Hk.
      * by injection Hk as <-.
      * done.
    + intros cid' lis' bb Hk. apply in_app_iff in Hk.
      destruct Hk as [Hk|[Hk|[Hk|Hk]]]; try by apply Hin in Hk.
      * done.
      * by injection Hk as _ _ <-.
    + intros Hno. by specialize (Hn Hno).
Qed.
End CreateCartClaims.

Section ValidationClaims.
Context {DB : Type}.
Variable S : Services DB.
Variables defaultStoreCartFields defaultStoreCartRelations : list string.

Lemma invalid_items_rejected flags body :
  items_valid (prop body "items") = false ->
  exists message,
    validate_StorePostCartReq flags body = inl (MedusaError INVALID_DATA message).
Proof.
  intros Hi. unfold validate_StorePostCartReq, StorePostCartReq_errors. rewrite Hi.
  destruct (isOptional isString (prop body "region_id"));
    destruct (isOptional isString (prop body "country_code")); simpl; by eexists.
Qed.

(** C6 (as the code has it). A request whose [items] array contains an
    item object without a [variant_id], or with a [quantity] that is not an
    integer number, is rejected by validation with an [INVALID_DATA] error:
    no collaborator is called and the database is untouched. *)
Theorem malformed_item_rejected_before_persistence raw d items o :
  RawRequest.body raw !! "items" = Some (JArr items) ->
  In (JObj o) items ->
  o !! "variant_id" = None \/ isInt (prop o "quantity") = false ->
  exists e,
    is_validation_error e /\
    post_carts S defaultStoreCartFields defaultStoreCartRelations raw d = (inl e, d, []).
Proof.
  intros Hitems Hin Hbad.
  assert (Hinvalid : Item_valid o = false).
  { unfold Item_valid. destruct Hbad as [Hv|Hq].
    - unfold prop at 1. by rewrite Hv.
    - rewrite Hq. by rewrite andb_false_r. }
  destruct (invalid_items_rejected (featureFlagRouter_isFeatureEnabled S)
              (RawRequest.body raw)) as (message & Hv).
  { unfold prop. rewrite Hitems. simpl.
    apply not_true_is_false. intros Hall. rewrite forallb_forall in Hall.
    specialize (Hall _ Hin). simpl in Hall. congruence. }
  exists (MedusaError INVALID_DATA message). split; [by eexists|].
  unfold post_carts. by rewrite Hv.
Qed.
End ValidationClaims.

(** ** Properties of batch-job creation *)

Section BatchJobClaims.
Import BatchJobs.
Context {St : Type}.
Variable C : Container St.

(** C9. A batch-job request that goes through resolves the strategy
    registered under [batchType_<type>] twice and calls its
    [prepareBatchJobForProcessing] twice: once with the validated body
    before the batch job is created, and once more, with the id of the
    created batch job, after it has been persisted. *)
Theorem batch_strategy_resolved_and_prepared_twice
        req d validated strategy toCreate d1 user job d2 :
  validate_AdminPostBatchesReq (Request.body req) = inr validated ->
  strategies C ("batchType_" +:+ AdminPostBatchesReq.type validated) = Some strategy ->
  prepareBatchJobForProcessing strategy (OfRequest validated) d = (inr toCreate, d1) ->
  Request.user req = Some user ->
  batchJobService_create C (with_created_by toCreate (user_id_of user)) d1
  = (inr job, d2) ->
  let key := "batchType_" +:+ AdminPostBatchesReq.type validated in
  let tr := [Resolve key;
             PrepareBatchJobForProcessing key (OfRequest validated);
             Resolve "batchJobService";
             BatchJobService_create (with_created_by toCreate (user_id_of user));
             Resolve key;
             PrepareBatchJobForProcessing key (OfId (BatchJob.id job))] in
  create_batch_job C req d
  = (inr {| Response.status := 201; Response.batch_job := job |},
     (prepareBatchJobForProcessing strategy (OfId (BatchJob.id job)) d2).2, tr) /\
  count (is_resolve_of key) tr = 2%nat /\
  count is_prepare tr = 2%nat.
Proof.
  intros Hv Hs Hprep Hu Hcreate key tr. subst key tr. split; [|split].
  - unfold create_batch_job. rewrite Hv. cbv zeta.
    unfold bind, resolve_strategy, prepare, call, userId, pure_call, not_awaited, ret.
    rewrite Hs, Hprep, Hu, Hcreate.
    destruct (prepareBatchJobForProcessing strategy (OfId (BatchJob.id job)) d2)
      as [r3 d3]. done.
  - unfold count. simpl. rewrite String.eqb_refl. done.
  - done.
Qed.
End BatchJobClaims.

(** ** The properties on the sample store *)

Section OnSamples.
Import Sample.

Abbreviation S_off := (MemStore.services flags_off).
Abbreviation S_on := (MemStore.services flags_on).
Abbreviation cart_of resp := (CartWithTotals.cart (Response.cart resp)).

(** Three items, the second cannot be generated: the request fails with
    the generator's error, the store is the initial one, without carts. *)
Lemma failed_line_items_roll_back_sample :
  (exists t2,
      run flags_off req_three_items db0
      = (inl (MedusaError NOT_FOUND "variant not found"), db0,
         opening_calls ++ Transaction_start :: CartService_create toCreate_three :: t2
                       ++ [Transaction_rollback])) /\
  MemStore.carts db0 !! "cart_0" = None.
Proof.
  apply (failed_line_items_roll_back S_off (ServicesOK0 := memstore_ok flags_off)
           fields relations req_three_items db0 r1 toCreate_three db0 opening_calls
           three_items (new_cart "cart_0" toCreate_three)
           (MemStore.create toCreate_three db0).2
           (MedusaError NOT_FOUND "variant not found")).
  - vm_compute. reflexivity.
  - reflexivity.
  - discriminate.
  - vm_compute. reflexivity.
  - left. eexists _, _. vm_compute. reflexivity.
Defined.

(** Without [region_id]: on the store with regions [r1; r2] the cart is
    created in [r1]; on the store without regions the request fails with
    the missing-region error. *)
Lemma default_region_is_first_or_fails_sample :
  (exists resp d' tr,
      run flags_off req_default db0 = (inr resp, d', tr) /\
      Cart.region_id (cart_of resp) = "r1") /\
  run flags_off req_default db_no_region
  = (inl missing_region_error, db_no_region, opening_calls).
Proof.
  split.
  - eexists _, _, _. split; [vm_compute; reflexivity|].
    refine (proj1 (proj1 (default_region_is_first_or_fails
                            S_off (ServicesOK0 := memstore_ok flags_off)
                            fields relations req_default db0 eq_refl)
                         r1 [r2] _ _ _ eq_refl _)).
    vm_compute. reflexivity.
  - apply (proj2 (default_region_is_first_or_fails
                    S_off (ServicesOK0 := memstore_ok flags_off)
                    fields relations req_default db_no_region eq_refl)).
    reflexivity.
Defined.

(** Two requested items give two line items, in request order. *)
Lemma line_items_follow_request_sample :
  exists resp d' tr,
    run flags_off req_two_items db0 = (inr resp, d', tr) /\
    line_item_pairs (Cart.items (cart_of resp)) = [("v1", 2); ("v2", 1)] /\
    length (Cart.items (cart_of resp)) = 2%nat.
Proof.
  eexists _, _, _. split; [vm_compute; reflexivity|].
  pose proof (line_items_follow_request
                S_off (ServicesOK0 := memstore_ok flags_off)
                fields relations req_two_items db0 two_items _ _ _
                eq_refl ltac:(discriminate) ltac:(vm_compute; reflexivity)) as H.
  exact (conj (proj1 H) (proj1 (proj2 H))).
Defined.

(** An explicit region id that no region has: a [TypeError]. *)
Lemma unknown_region_id_type_error_sample :
  run flags_off req_unknown_region db0
  = (inl (TypeError "Cannot read properties of undefined (reading 'id')"), db0,
     opening_calls).
Proof.
  apply (unknown_region_id_type_error S_off fields relations req_unknown_region db0
           "r9" [r1; r2]).
  - reflexivity.
  - reflexivity.
  - repeat constructor; discriminate.
Defined.

(** The caller's [ip] wins, [user_agent] is the automatic one, and the
    caller's other key is kept. *)
Lemma context_caller_wins_sample :
  exists resp d' tr,
    run flags_off req_context db0 = (inr resp, d', tr) /\
    Cart.context (cart_of resp) !! "ip" = Some (JStr "10.0.0.1") /\
    Cart.context (cart_of resp) !! "user_agent" = Some (JStr "Chrome") /\
    Cart.context (cart_of resp) !! "note" = Some (JStr "gift").
Proof.
  eexists _, _, _. split; [vm_compute; reflexivity|].
  pose proof (context_caller_wins
                S_off (ServicesOK0 := memstore_ok flags_off)
                fields relations req_context db0 _ _ _
                ltac:(vm_compute; reflexivity)) as (Hcaller & _ & Hua & _).
  split; [|split].
  - apply Hcaller. vm_compute. reflexivity.
  - apply Hua. vm_compute. reflexivity.
  - apply Hcaller. vm_compute. reflexivity.
Defined.

(** Customer [c1] with email [a@b.com], no items. *)
Lemma customer_from_refetched_record_sample :
  exists resp d' tr,
    run flags_off req_customer db0 = (inr resp, d', tr) /\
    Cart.customer_id (cart_of resp) = Some "c1" /\
    Cart.email (cart_of resp) = Some "a@b.com" /\
    Cart.items (cart_of resp) = [].
Proof.
  eexists _, _, _. split; [vm_compute; reflexivity|].
  destruct (customer_from_refetched_record
              S_off (ServicesOK0 := memstore_ok flags_off)
              fields relations req_customer db0 "c1" _ _ _
              eq_refl ltac:(vm_compute; reflexivity))
    as (customer & Hc & Hid & Hemail & Hitems).
  vm_compute in Hc. injection Hc as <-.
  split; [exact Hid|]. split; [exact Hemail|]. apply Hitems. by left.
Defined.

(** No items: no line-item call, the cart [cart_0] is stored and returned. *)
Lemma no_items_creates_empty_cart_sample :
  count is_generate (run flags_on req_default db0).2 = 0%nat /\
  count is_addLineItems (run flags_on req_default db0).2 = 0%nat /\
  count is_flag (run flags_on req_default db0).2 = 0%nat /\
  exists ct d',
    run flags_on req_default db0
    = (inr {| Response.status := 200; Response.cart := ct |}, d',
       opening_calls
         ++ [Transaction_start; CartService_create (build_toCreate req_default r1 None);
             Transaction_commit;
             CartService_retrieveWithTotals "cart_0" fields relations]) /\
    Cart.items (CartWithTotals.cart ct) = [] /\
    MemStore.carts d' !! "cart_0" = Some (CartWithTotals.cart ct).
Proof.
  destruct (no_items_creates_empty_cart
              S_on (ServicesOK0 := memstore_ok flags_on)
              fields relations req_default db0 (or_introl eq_refl)) as [Hcalls Hok].
  destruct (Hcalls _ _ _ (surjective_pairing3 (run flags_on req_default db0)))
    as (Hg & Ha & Hf).
  split; [exact Hg|]. split; [exact Ha|]. split; [exact Hf|].
  destruct (Hok r1 (build_toCreate req_default r1 None) db0 opening_calls
                (new_cart "cart_0" (build_toCreate req_default r1 None))
                (MemStore.create (build_toCreate req_default r1 None) db0).2
                ltac:(vm_compute; reflexivity) ltac:(vm_compute; reflexivity))
    as (ct & Hrun & Hct & Hitems & Hstored).
  exists ct, (MemStore.create (build_toCreate req_default r1 None) db0).2.
  split; [exact Hrun|]. rewrite Hct. split; [exact Hitems|exact Hstored].
Defined.

(** Two items with the flag enabled: one lookup, one attach that receives
    [true]. *)
Lemma flag_consulted_once_per_attach_sample :
  count is_flag (run flags_on req_two_items db0).2 = 1%nat /\
  count is_addLineItems (run flags_on req_two_items db0).2 = 1%nat.
Proof.
  destruct (flag_consulted_once_per_attach
              S_on fields relations req_two_items db0 _ _ _
              (surjective_pairing3 (run flags_on req_two_items db0)))
    as (Heq & _ & _ & _ & _ & Hone).
  assert (H1 : count is_flag (run flags_on req_two_items db0).2 = 1%nat).
  { eapply Hone; [vm_compute; reflexivity|]. intros [H|H]; discriminate H. }
  split; [exact H1|]. rewrite <- Heq. exact H1.
Defined.

(** C7, one lookup per request does not hold: a request without items
    succeeds without a single lookup of the flag. *)
Lemma flag_not_consulted_without_items :
  (exists resp, (run flags_on req_default db0).1.1 = inr resp) /\
  count is_flag (run flags_on req_default db0).2 <> 1%nat.
Proof. split; [eexists; vm_compute; reflexivity|]. vm_compute. discriminate. Qed.

(** An item without [variant_id] is rejected by validation. *)
Lemma malformed_item_rejected_before_persistence_sample :
  exists e,
    is_validation_error e /\
    post_carts S_off fields relations (raw body_without_variant) db0 = (inl e, db0, []).
Proof.
  apply (malformed_item_rejected_before_persistence
           S_off fields relations (raw body_without_variant) db0
           [JObj item_without_variant] item_without_variant).
  - vm_compute. reflexivity.
  - left. reflexivity.
  - left. vm_compute. reflexivity.
Defined.

(** C6, a non-positive quantity is not rejected by validation: an item
    with quantity [0] is malformed in the specification's sense, yet it
    passes validation and the request goes on to create the cart and call
    the generator inside the transaction; the failure is the generator's,
    after the persistence attempt. *)
Lemma zero_quantity_passes_validation :
  spec_malformed_item item_zero_quantity = true /\
  validate_StorePostCartReq flags_off body_zero_quantity
  = inr (to_StorePostCartReq body_zero_quantity) /\
  StorePostCartReq.items (to_StorePostCartReq body_zero_quantity) = Some [item "v1" 0] /\
  (post_carts S_off fields relations (raw body_zero_quantity) db0).1.1
  = inl (MedusaError INVALID_DATA "invalid quantity") /\
  count is_persistence (post_carts S_off fields relations (raw body_zero_quantity) db0).2
  = 2%nat.
Proof. repeat split; vm_compute; reflexivity. Qed.

(** The sample batch request: resolved twice, prepared twice, the second
    time after the job [batch_1] was created; the response is 201 although
    the second preparation was rejected. *)
Lemma batch_strategy_resolved_and_prepared_twice_sample :
  BatchJobs.create_batch_job container batch_request 0%nat
  = (inr {| BatchJobs.Response.status := 201;
            BatchJobs.Response.batch_job :=
              job_of {| BatchJobs.CreateInput.type := "product-export";
                        BatchJobs.CreateInput.context := ∅;
                        BatchJobs.CreateInput.dry_run := false;
                        BatchJobs.CreateInput.created_by := Some "usr_1" |} |},
     2%nat,
     [BatchJobs.Resolve "batchType_product-export";
      BatchJobs.PrepareBatchJobForProcessing "batchType_product-export"
        (BatchJobs.OfRequest batch_validated);
      BatchJobs.Resolve "batchJobService";
      BatchJobs.BatchJobService_create
        {| BatchJobs.CreateInput.type := "product-export";
           BatchJobs.CreateInput.context := ∅;
           BatchJobs.CreateInput.dry_run := false;
           BatchJobs.CreateInput.created_by := Some "usr_1" |};
      BatchJobs.Resolve "batchType_product-export";
      BatchJobs.PrepareBatchJobForProcessing "batchType_product-export"
        (BatchJobs.OfId "batch_1")]).
Proof.
  refine (proj1 (batch_strategy_resolved_and_prepared_twice
                   container batch_request 0%nat batch_validated export_strategy
                   batch_toCreate 1%nat admin _ 1%nat _ _ _ _ _)).
  - vm_compute. reflexivity.
  - reflexivity.
  - reflexivity.
  - reflexivity.
  - reflexivity.
Defined.
End OnSamples.

(** * More of the routes *)

(** ** The cart handler, unfolded *)

Section CreateCartUnfolded.
Context {DB : Type}.
Variable S : Services DB.
Variables defaultStoreCartFields defaultStoreCartRelations : list string.

(** The handler as one case analysis on its three stages. *)
Lemma create_cart_unfold req d :
  create_cart S defaultStoreCartFields defaultStoreCartRelations req d
  = match prepare S req d with
    | (inl e, d1, t1) => (inl e, d1, t1)
    | (inr (region, toCreate), d1, t1) =>
        match transaction_callback S req region toCreate d1 with
        | (inl e, _, t2) =>
            (inl e, d1, t1 ++ Transaction_start :: t2 ++ [Transaction_rollback])
        | (inr cart, d2, t2) =>
            (match cartService_retrieveWithTotals S (Cart.id cart) defaultStoreCartFields
                                                  defaultStoreCartRelations d2 with
             | inl e => inl e
             | inr ct => inr {| Response.status := 200; Response.cart := ct |}
             end,
             d2,
             t1 ++ Transaction_start :: t2
                ++ [Transaction_commit;
                    CartService_retrieveWithTotals (Cart.id cart) defaultStoreCartFields
                                                   defaultStoreCartRelations])
        end
    end.
Proof.
  unfold create_cart, bind at 1.
  destruct (prepare S req d) as [[[e|[region toCreate]] d1] t1]; [done|].
  unfold bind, transaction, read, ret.
  destruct (transaction_callback S req region toCreate d1) as [[[e|cart] d2] t2]; [done|].
  destruct (cartService_retrieveWithTotals _ _ _ _ _); simpl;
    by rewrite <- ?app_assoc, ?app_nil_r.
Qed.

(** The transaction callback as one case analysis. *)
Lemma transaction_callback_unfold req region toCreate d :
  transaction_callback S req region toCreate d
  = match cartService_create S toCreate d with
    | (inl e, dc) => (inl e, dc, [CartService_create toCreate])
    | (inr cart, dc) =>
        match requested_items req with
        | [] => (inr cart, dc, [CartService_create toCreate])
        | _ :: _ =>
            match generate_loop S req region (requested_items req) [] dc with
            | (inl e, dg, tg) => (inl e, dg, CartService_create toCreate :: tg)
            | (inr lis, dg, tg) =>
                let fv := featureFlagRouter_isFeatureEnabled S "sales_channels" in
                let calls :=
                  CartService_create toCreate
                    :: tg ++ [FeatureFlagRouter_isFeatureEnabled "sales_channels";
                              CartService_addLineItems (Cart.id cart) lis fv] in
                match cartService_addLineItems S (Cart.id cart) lis fv dg with
                | (inl e, da) => (inl e, da, calls)
                | (inr _, da) => (inr cart, da, calls)
                end
            end
        end
    end.
Proof.
  unfold transaction_callback, requested_items, bind at 1, call at 1.
  destruct (cartService_create S toCreate d) as [[e|cart] dc]; [done|].
  destruct (StorePostCartReq.items (Request.validatedBody req)) as [[|i l]|]; try done.
  change (negb (length (i :: l) =? 0)%nat) with true.
  change (default [] (Some (i :: l))) with (i :: l). cbv iota.
  unfold bind at 1.
  destruct (generate_loop S req region (i :: l) [] dc) as [[[e|lis] dg] tg]; [done|].
  unfold bind, pure_call, call, ret. cbv zeta.
  destruct (cartService_addLineItems _ _ _ _ _) as [[e|u] da]; simpl;
    by rewrite <- ?app_assoc, ?app_nil_r.
Qed.

(** The loop over a concatenation is the loop over the first part followed
    by the loop over the second, started from what the first collected. *)
Lemma generate_loop_app req region xs ys acc d :
  generate_loop S req region (xs ++ ys) acc d
  = bind (generate_loop S req region xs acc)
         (fun lis => generate_loop S req region ys lis) d.
Proof.
  revert acc d. induction xs as [|x xs IH]; intros acc d; simpl.
  - unfold bind, ret. by destruct (generate_loop S req region ys acc d) as [[??]?].
  - unfold bind, call.
    destruct (lineItemService_generate _ _ _ _ _ _) as [[e|li] d1]; [done|].
    rewrite IH. unfold bind.
    destruct (generate_loop S req region xs (acc ++ [li]) d1) as [[[e|lis] d2] t2]; [done|].
    destruct (generate_loop S req region ys lis d2) as [[??]?].
    by rewrite <- app_assoc.
Qed.
End CreateCartUnfolded.

(** ** The shape of every trace of the cart handler *)

Lemma find_first {A} (f : A -> bool) (l : list A) x :
  List.find f l = Some x ->
  exists pre post, l = pre ++ x :: post /\ f x = true /\
                   Forall (fun y => f y = false) pre.
Proof.
  induction l as [|y l IH]; simpl; [done|].
  destruct (f y) eqn:Hy.
  - intros [= ->]. exists [], l. by repeat split.
  - intros Hf. destruct (IH Hf) as (pre & post & -> & Hx & Hpre).
    exists (y :: pre), post. repeat split; [done|]. by constructor.
Qed.

Lemma filter_generate_calls req region (items : list Item.t) :
  List.filter is_generate (map (generate_call req region) items)
  = map (generate_call req region) items.
Proof. induction items as [|i l IH]; simpl; [done|]. by rewrite IH. Qed.

Lemma filter_none (p : Call -> bool) t :
  Forall (fun c => p c = false) t -> List.filter p t = [].
Proof. induction 1 as [|c t Hc _ IH]; simpl; [done|]. by rewrite Hc. Qed.



Section CreateCartShape.
Context {DB : Type}.
Variable S : Services DB.
Variables defaultStoreCartFields defaultStoreCartRelations : list string.

Abbreviation handler := (create_cart S defaultStoreCartFields defaultStoreCartRelations).

(** The calls of the transaction callback: [create], then [generate] for a
    prefix of the requested items, then nothing or the flag lookup and the
    attach; a callback that returns has generated every item. *)
Lemma callback_trace req region toCreate d r d' t :
  transaction_callback S req region toCreate d = (r, d', t) ->
  exists n tail,
    t = CartService_create toCreate
          :: map (generate_call req region) (take n (requested_items req)) ++ tail /\
    attach_tail S tail /\
    (forall cart, r = inr cart -> take n (requested_items req) = requested_items req).
Proof.
  rewrite transaction_callback_unfold.
  destruct (cartService_create S toCreate d) as [[e|cart] dc].
  { intros [= <- <- <-]. exists 0%nat, []. split_and!; [done|by left|done]. }
  destruct (requested_items req) as [|i l] eqn:Hitems.
  { intros [= <- <- <-]. exists 0%nat, []. split_and!; [done|by left|done]. }
  destruct (generate_loop S req region (i :: l) [] dc) as [[[e|lis] dg] tg] eqn:Hg;
    destruct (generate_loop_trace _ _ _ _ _ _ _ _ _ Hg) as (n & -> & Hn).
  { intros [= <- <- <-]. exists n, []. rewrite app_nil_r.
    split_and!; [done|by left|done]. }
  cbv zeta.
  destruct (cartService_addLineItems _ _ _ _ _) as [[e|u] da]; intros [= <- <- <-];
    (exists n; eexists; split_and!;
       [done | right; by eexists _, _ | intros _ _; rewrite (Hn lis eq_refl); apply firstn_all]).
Qed.

(** The calls of the handler: the preparing calls; then, if the preparing
    steps succeeded, one transaction (start, the callback's calls, commit or
    rollback) and, after a commit, the read of the created cart. *)
Lemma handler_trace req d r d' tr :
  handler req d = (r, d', tr) ->
  exists rp t1,
    prepare S req d = (rp, d, t1) /\
    Forall (fun c => is_prepare_call c = true) t1 /\
    ((exists e, rp = inl e /\ r = inl e /\ d' = d /\ tr = t1) \/
     (exists region toCreate n tail closing post,
         rp = inr (region, toCreate) /\
         tr = t1 ++ Transaction_start :: CartService_create toCreate
                 :: map (generate_call req region) (take n (requested_items req))
                 ++ tail ++ closing :: post /\
         attach_tail S tail /\
         ((closing = Transaction_rollback /\ post = [] /\ d' = d /\ exists e, r = inl e) \/
          (closing = Transaction_commit /\
           take n (requested_items req) = requested_items req /\
           exists cart,
             post = [CartService_retrieveWithTotals (Cart.id cart) defaultStoreCartFields
                                                    defaultStoreCartRelations])))).
Proof.
  intros H. rewrite create_cart_unfold in H.
  destruct (prepare S req d) as [[rp d1] t1] eqn:Hp.
  destruct (prepare_reads_only S _ _ _ _ _ Hp) as [-> HF].
  exists rp, t1. split; [done|]. split; [done|].
  destruct rp as [e|[region toCreate]].
  { injection H as <- <- <-. left. by exists e. }
  destruct (transaction_callback S req region toCreate d) as [[rc dc] tc] eqn:Hcb.
  destruct (callback_trace _ _ _ _ _ _ _ Hcb) as (n & tail & -> & Htail & Hall).
  right. exists region, toCreate, n, tail.
  destruct rc as [e|cart]; injection H as <- <- <-.
  - exists Transaction_rollback, []. split_and!; try done.
    + simpl. by rewrite <- !app_assoc.
    + left. split_and!; try done. by exists e.
  - eexists Transaction_commit, _. split_and!; try done.
    + simpl. rewrite <- !app_assoc. simpl. done.
    + right. split_and!; [done|by eapply Hall|by eexists].
Qed.
End CreateCartShape.

(** ** More properties of cart creation *)

Lemma Forall_generate_calls (P : Call -> Prop) req region (items : list Item.t) :
  (forall c, is_generate c = true -> P c) ->
  Forall P (map (generate_call req region) items).
Proof. intros HP. induction items; constructor; [by apply HP|done]. Qed.

Lemma Forall_attach_tail {DB} (S : Services DB) (P : Call -> Prop) tail :
  attach_tail S tail ->
  (forall c, is_flag c = true \/ is_addLineItems c = true -> P c) ->
  Forall P tail.
Proof.
  intros [->|(cid & lis & ->)] HP; [constructor|].
  repeat constructor; apply HP; auto.
Qed.

Section CreateCartExtras.
Context {DB : Type}.
Variable S : Services DB.
Variables defaultStoreCartFields defaultStoreCartRelations : list string.

Abbreviation handler := (create_cart S defaultStoreCartFields defaultStoreCartRelations).
Abbreviation response_cart resp := (CartWithTotals.cart (Response.cart resp)).

(** The preparing steps once the region is resolved: they end with the
    customer lookup, when the request has a customer id. *)
Lemma prepare_with_region req d regions region :
  regionService_list S d = inr regions ->
  resolve_region (Request.validatedBody req) regions d = (inr (Some region), d, []) ->
  prepare S req d
  = match truthy (user_customer_id req) with
    | None => (inr (region, build_toCreate req region None), d, opening_calls)
    | Some customer_id =>
        let calls := opening_calls ++ [Resolve "customerService";
                                       CustomerService_retrieve customer_id] in
        match customerService_retrieve S customer_id d with
        | inl e => (inl e, d, calls)
        | inr c => (inr (region, build_toCreate req region (Some c)), d, calls)
        end
    end.
Proof.
  intros Hl Hr. unfold prepare, resolve, pure_call, read, bind, ret. rewrite Hl, Hr.
  destruct (truthy (user_customer_id req)) as [cid|]; [|done].
  by destruct (customerService_retrieve S cid d).
Qed.

(** Without a truthy customer id the preparing steps make the opening
    calls and nothing else. *)
Lemma prepare_anonymous_trace req d rp d1 t1 :
  truthy (user_customer_id req) = None ->
  prepare S req d = (rp, d1, t1) ->
  t1 = opening_calls.
Proof.
  intros Hanon. unfold prepare, resolve, pure_call, read, bind, ret, throw.
  destruct (regionService_list S d) as [e|regions]; simpl.
  { by intros [= <- <- <-]. }
  destruct (resolve_region _ regions d) as [[rr dr] trr] eqn:Hr.
  destruct (resolve_region_pure _ _ _ _ _ _ Hr) as [-> ->].
  destruct rr as [e|[region|]]; simpl; [by intros [= <- <- <-]| |by intros [= <- <- <-]].
  rewrite Hanon. simpl. by intros [= <- <- <-].
Qed.

(** X1. Every write the handler makes goes through the transaction: the
    trace is either free of persistence calls and transaction markers (the
    request failed while preparing, database untouched), or it has exactly
    one transaction, with no persistence call before its start or after its
    end; a rollback ends the trace and leaves the database untouched. *)
Theorem persistence_only_inside_transaction req d r d' tr :
  handler req d = (r, d', tr) ->
  (Forall (fun c => outside_call c = true) tr /\ d' = d /\ exists e, r = inl e) \/
  (exists pre body closing post,
      tr = pre ++ Transaction_start :: body ++ closing :: post /\
      Forall (fun c => outside_call c = true) pre /\
      Forall (fun c => is_tx_marker c = false) body /\
      Forall (fun c => outside_call c = true) post /\
      (closing = Transaction_commit \/
       (closing = Transaction_rollback /\ post = [] /\ d' = d))).
Proof.
  intros H. destruct (handler_trace S _ _ _ _ _ _ _ H) as (rp & t1 & Hp & HF & Hcases).
  assert (Hout : Forall (fun c => outside_call c = true) t1).
  { eapply Forall_impl; [exact HF|]. by intros []. }
  destruct Hcases as [(e & -> & -> & -> & ->)|
                      (region & toCreate & n & tail & closing & post & -> & -> & Htail & Hend)].
  { left. split_and!; [done|done|by exists e]. }
  right.
  exists t1, (CartService_create toCreate
                :: map (generate_call req region) (take n (requested_items req)) ++ tail),
         closing, post.
  split_and!.
  - simpl. by rewrite <- !app_assoc.
  - done.
  - constructor; [done|]. apply Forall_app. split.
    + apply Forall_generate_calls. by intros [].
    + eapply Forall_attach_tail; [exact Htail|]. intros [] [|]; done.
  - destruct Hend as [(_ & -> & _)|(_ & _ & cart & ->)]; repeat constructor.
  - destruct Hend as [(-> & -> & -> & _)|(-> & _)]; [right|left]; done.
Qed.

(** X2. The [generate] calls of a request are, in order, the calls for a
    prefix of the requested items, each with the resolved region and the
    customer id of the request; none is made when the preparing steps fail,
    and a request that succeeds has made one for every item. *)
Theorem generate_calls_follow_items req d r d' tr :
  handler req d = (r, d', tr) ->
  (List.filter is_generate tr = [] /\ exists e, r = inl e) \/
  (exists region toCreate t1 n,
      prepare S req d = (inr (region, toCreate), d, t1) /\
      List.filter is_generate tr
      = map (generate_call req region) (take n (requested_items req)) /\
      (forall resp, r = inr resp -> take n (requested_items req) = requested_items req)).
Proof.
  intros H. destruct (handler_trace S _ _ _ _ _ _ _ H) as (rp & t1 & Hp & HF & Hcases).
  assert (Hnone : List.filter is_generate t1 = []).
  { apply filter_none. eapply Forall_impl; [exact HF|]. by intros []. }
  destruct Hcases as [(e & -> & -> & -> & ->)|
                      (region & toCreate & n & tail & closing & post & -> & -> & Htail & Hend)].
  { left. split; [done|by exists e]. }
  right. exists region, toCreate, t1, n. split; [done|].
  assert (Htl : List.filter is_generate (tail ++ closing :: post) = []).
  { apply filter_none. apply Forall_app. split.
    - eapply Forall_attach_tail; [exact Htail|]. intros [] [|]; done.
    - destruct Hend as [(-> & -> & _)|(-> & _ & cart & ->)]; repeat constructor. }
  split.
  - rewrite List.filter_app, Hnone. simpl.
    by rewrite List.filter_app, filter_generate_calls, Htl, app_nil_r.
  - intros resp ->. destruct Hend as [(_ & _ & _ & e & [=])|(_ & Hall & _)]. done.
Qed.

(** X3. When the customer lookup fails, the request fails with the error
    of the lookup right after it: no transaction is opened, no persistence
    call is made and the database is untouched. *)
Theorem customer_lookup_failure_stops_request req d regions region customer_id e :
  regionService_list S d = inr regions ->
  resolve_region (Request.validatedBody req) regions d = (inr (Some region), d, []) ->
  truthy (user_customer_id req) = Some customer_id ->
  customerService_retrieve S customer_id d = inl e ->
  handler req d
  = (inl e, d,
     opening_calls ++ [Resolve "customerService"; CustomerService_retrieve customer_id]).
Proof.
  intros Hl Hr Hc He. rewrite create_cart_unfold.
  by rewrite (prepare_with_region _ _ _ _ Hl Hr), Hc, He.
Qed.

(** X4. When [create] itself fails, the request fails with its error and
    the transaction is rolled back at once: the database is the initial one
    and no line item is generated, whatever items were requested. *)
Theorem create_failure_rolls_back req d region toCreate d1 t1 e dc :
  prepare S req d = (inr (region, toCreate), d1, t1) ->
  cartService_create S toCreate d = (inl e, dc) ->
  handler req d
  = (inl e, d,
     t1 ++ [Transaction_start; CartService_create toCreate; Transaction_rollback]).
Proof.
  intros Hp Hc. destruct (prepare_reads_only S _ _ _ _ _ Hp) as [-> _].
  rewrite create_cart_unfold, Hp, transaction_callback_unfold, Hc. done.
Qed.

(** X5. Generation stops at the first item that cannot be generated: with
    the requested items [before ++ bad :: after], once the items of [before]
    are generated and [generate] fails on [bad], the request fails with that
    error; [generate] was called for [before] and [bad] only, no flag lookup
    or attach was made, and the transaction is rolled back. *)
Theorem generation_stops_at_first_failure
        req d region toCreate d1 t1 before bad after cart dc lis dk tk e dbad :
  prepare S req d = (inr (region, toCreate), d1, t1) ->
  requested_items req = before ++ bad :: after ->
  cartService_create S toCreate d = (inr cart, dc) ->
  generate_loop S req region before [] dc = (inr lis, dk, tk) ->
  lineItemService_generate S (Item.variant_id bad) (Region.id region) (Item.quantity bad)
    {| GenerateContext.region := region;
       GenerateContext.customer_id := user_customer_id req |} dk = (inl e, dbad) ->
  handler req d
  = (inl e, d,
     t1 ++ [Transaction_start; CartService_create toCreate]
        ++ map (generate_call req region) (before ++ [bad])
        ++ [Transaction_rollback]).
Proof.
  intros Hp Hitems Hc Hg Hbad.
  destruct (prepare_reads_only S _ _ _ _ _ Hp) as [-> _].
  destruct (generate_loop_trace S _ _ _ _ _ _ _ _ Hg) as (n & -> & Hn).
  rewrite (Hn lis eq_refl), firstn_all in Hg.
  assert (Hloop : generate_loop S req region (requested_items req) [] dc
                  = (inl e, dbad,
                     map (generate_call req region) (before ++ [bad]))).
  { rewrite Hitems, generate_loop_app. rewrite (bind_ok _ _ _ _ _ _ Hg). simpl.
    unfold bind, call. rewrite Hbad. by rewrite map_app. }
  rewrite create_cart_unfold, Hp, transaction_callback_unfold, Hc, Hloop.
  destruct (requested_items req) eqn:Hr; [by destruct before|].
  reflexivity.
Qed.

(** X6. The read of the created cart comes after the commit: when it
    fails, the request fails with its error although the transaction was
    committed, and the database is the committed one, with all the writes
    of the transaction. *)
Theorem failed_read_after_commit_keeps_writes req d region toCreate d1 t1 cart d2 t2 e :
  prepare S req d = (inr (region, toCreate), d1, t1) ->
  transaction_callback S req region toCreate d = (inr cart, d2, t2) ->
  cartService_retrieveWithTotals S (Cart.id cart) defaultStoreCartFields
    defaultStoreCartRelations d2 = inl e ->
  handler req d
  = (inl e, d2,
     t1 ++ Transaction_start :: t2
        ++ [Transaction_commit;
            CartService_retrieveWithTotals (Cart.id cart) defaultStoreCartFields
                                           defaultStoreCartRelations]).
Proof.
  intros Hp Hcb Hr. destruct (prepare_reads_only S _ _ _ _ _ Hp) as [-> _].
  by rewrite create_cart_unfold, Hp, Hcb, Hr.
Qed.

Section WithContracts.
Context `{!ServicesOK S}.

(** X7. With an explicit [region_id] that a listed region has, a created
    cart is in the first listed region with that id: its region id is the
    requested one. *)
Theorem explicit_region_is_used req d rid resp d' tr :
  StorePostCartReq.region_id (Request.validatedBody req) = Some rid ->
  create_cart S defaultStoreCartFields defaultStoreCartRelations req d
  = (inr resp, d', tr) ->
  Cart.region_id (response_cart resp) = rid /\
  exists regions pre region post,
    regionService_list S d = inr regions /\
    regions = pre ++ region :: post /\
    Region.id region = rid /\
    Forall (fun r => Region.id r <> rid) pre.
Proof.
  intros Hrid Hrun.
  apply create_cart_ok_inv in Hrun
    as (region & toCreate & t1 & id & lis & Hp & _ & Hcart & _); [|done].
  apply prepare_ok_inv in Hp as (regions & customer & Hlist & Hres & _ & ->).
  unfold resolve_region in Hres. rewrite Hrid in Hres. simpl in Hres.
  injection Hres as Hfind.
  destruct (find_first _ _ _ Hfind) as (pre & post & -> & Hid & Hpre).
  apply bool_decide_eq_true in Hid. injection Hid as Hid.
  rewrite Hcart. split; [done|].
  exists (pre ++ region :: post), pre, region, post. split_and!; try done.
  eapply Forall_impl; [exact Hpre|]. intros r Hr Heq. simpl in Hr.
  apply bool_decide_eq_false in Hr. apply Hr. by rewrite Heq.
Qed.


(** X9. A request without a truthy customer id makes no customer lookup at
    all, and a cart it creates has neither customer id nor email. *)
Theorem anonymous_request_has_no_customer req d :
  truthy (user_customer_id req) = None ->
  forall r d' tr,
    handler req d = (r, d', tr) ->
    count is_customer_call tr = 0%nat /\
    (forall resp, r = inr resp ->
                  Cart.customer_id (response_cart resp) = None /\
                  Cart.email (response_cart resp) = None).
Proof.
  intros Hanon r d' tr Hrun. split.
  - destruct (handler_trace S _ _ _ _ _ _ _ Hrun) as (rp & t1 & Hp & HF & Hcases).
    assert (Ht1 : Forall (fun c => is_customer_call c = false) t1).
    { rewrite (prepare_anonymous_trace _ _ _ _ _ Hanon Hp). repeat constructor. }
    apply count_zero_Forall.
    destruct Hcases as [(e & -> & -> & -> & ->)|
                        (region & toCreate & n & tail & closing & post & -> & -> & Htail & Hend)];
      [done|].
    apply Forall_app. split; [done|]. constructor; [done|]. constructor; [done|].
    apply Forall_app. split; [apply Forall_generate_calls; by intros []|].
    apply Forall_app. split.
    + eapply Forall_attach_tail; [exact Htail|]. intros [] [|]; done.
    + destruct Hend as [(-> & -> & _)|(-> & _ & cart & ->)]; repeat constructor.
  - intros resp ->.
    apply create_cart_ok_inv in Hrun
      as (region & toCreate & t1 & id & lis & Hp & _ & Hcart & _); [|done].
    apply prepare_ok_inv in Hp as (regions & customer & _ & _ & Hcust & ->).
    unfold customer_fetched in Hcust. rewrite Hanon in Hcust. subst customer.
    by rewrite Hcart.
Qed.

(** X10. The keys of a created cart's context are the caller's keys
    together with [ip] and [user_agent], nothing else; a caller context
    without own properties leaves exactly the two automatic entries. *)
Theorem context_keys req d resp d' tr :
  handler req d = (inr resp, d', tr) ->
  dom (Cart.context (response_cart resp))
  = dom (spread (StorePostCartReq.context (Request.validatedBody req)))
      ∪ {[ "ip"; "user_agent" ]} /\
  (spread (StorePostCartReq.context (Request.validatedBody req)) = ∅ ->
   Cart.context (response_cart resp) = reqContext req).
Proof.
  intros Hrun.
  apply create_cart_ok_inv in Hrun
    as (region & toCreate & t1 & id & lis & Hp & _ & Hcart & _); [|done].
  apply prepare_ok_inv in Hp as (regions & customer & _ & _ & _ & ->).
  rewrite Hcart. simpl. unfold merge_objects, reqContext. split.
  - rewrite dom_union_L, dom_insert_L, dom_singleton_L. set_solver.
  - intros ->. by rewrite (left_id_L ∅ (∪)).
Qed.
End WithContracts.
End CreateCartExtras.

(** ** Validation of items *)

Lemma Qred_inject_Z z : Qred (inject_Z z) = inject_Z z.
Proof.
  unfold Qred, inject_Z.
  pose proof (Z.ggcd_gcd z 1) as Hg. pose proof (Z.ggcd_correct_divisors z 1) as Hd.
  destruct (Z.ggcd z 1) as [g [a b]]. simpl in *.
  rewrite Z.gcd_1_r in Hg. subst g. destruct Hd as [Ha Hb].
  rewrite Z.mul_1_l in Ha, Hb. by subst.
Qed.

(** X11. An item object passes the decorators of [Item] exactly when its
    [variant_id] is a non-empty string and its [quantity] is a number with
    an integer value; the validated item then carries that string and that
    integer.  Zero and negative integers pass. *)
Theorem Item_valid_iff (o : gmap string JsValue) :
  Item_valid o = true <->
  exists s q z,
    o !! "variant_id" = Some (JStr s) /\ s <> "" /\
    o !! "quantity" = Some (JNum q) /\ (q == inject_Z z)%Q /\
    to_Item (JObj o) = {| Item.variant_id := s; Item.quantity := z |}.
Proof.
  unfold Item_valid, to_Item, prop. split.
  - intros H. apply andb_prop in H as [H Hint]. apply andb_prop in H as [H _].
    apply andb_prop in H as [Hne Hs].
    destruct (o !! "variant_id") as [[| | | |s| |]|]; try done.
    destruct (o !! "quantity") as [[| | |q| | |]|]; try done.
    unfold isInt in Hint. apply Pos.eqb_eq in Hint.
    simpl in Hne, Hs |- *. exists s, q, (Qnum (Qred q)). split_and!; try done.
    + intros ->. done.
    + rewrite <- (Qred_correct q) at 1.
      destruct (Qred q) as [n dn]. simpl in Hint. subst dn. done.
  - intros (s & q & z & -> & Hs & -> & Hq & _). simpl.
    apply Qred_complete in Hq. rewrite Qred_inject_Z in Hq. rewrite Hq. simpl.
    destruct s; [done|]. done.
Qed.

(** ** More properties of batch-job creation *)

Section BatchJobExtras.
Import BatchJobs.
Context {St : Type}.
Variable C : Container St.

(** The handler as one case analysis on its steps. *)
Lemma create_batch_job_unfold req d :
  create_batch_job C req d
  = match validate_AdminPostBatchesReq (Request.body req) with
    | inl e => (inl e, d, [])
    | inr validated =>
        let key := "batchType_" +:+ AdminPostBatchesReq.type validated in
        match strategies C key with
        | None => (inl (ResolutionError key), d, [Resolve key])
        | Some strategy =>
            let first := [Resolve key;
                          PrepareBatchJobForProcessing key (OfRequest validated)] in
            match prepareBatchJobForProcessing strategy (OfRequest validated) d with
            | (inl e, d1) => (inl e, d1, first)
            | (inr toCreate, d1) =>
                match Request.user req with
                | None =>
                    (inl (TypeError "Cannot read properties of undefined (reading 'id')"),
                     d1, first)
                | Some user =>
                    let input := with_created_by toCreate (user_id_of user) in
                    let second := first ++ [Resolve "batchJobService";
                                            BatchJobService_create input] in
                    match batchJobService_create C input d1 with
                    | (inl e, d2) => (inl e, d2, second)
                    | (inr job, d2) =>
                        (inr {| Response.status := 201; Response.batch_job := job |},
                         (prepareBatchJobForProcessing strategy
                            (OfId (BatchJob.id job)) d2).2,
                         second ++ [Resolve key;
                                    PrepareBatchJobForProcessing
                                      key (OfId (BatchJob.id job))])
                    end
                end
            end
        end
    end.
Proof.
  unfold create_batch_job.
  destruct (validate_AdminPostBatchesReq (Request.body req)) as [e|validated]; [done|].
  cbv zeta.
  unfold bind, resolve_strategy, prepare, call, userId, pure_call, not_awaited, ret, throw.
  destruct (strategies C _) as [strategy|] eqn:Hs; [|done].
  destruct (prepareBatchJobForProcessing strategy (OfRequest validated) d)
    as [[e|toCreate] d1]; [done|].
  destruct (Request.user req) as [user|]; [|done].
  destruct (batchJobService_create C _ d1) as [[e|job] d2]; [done|].
  by destruct (prepareBatchJobForProcessing strategy (OfId (BatchJob.id job)) d2).
Qed.


(** X13. A request without [req.user] fails with a [TypeError] only after
    the strategy has prepared the batch job: the state is the one the
    preparation left, and nothing is created. *)
Theorem missing_user_fails_after_preparation req d validated strategy toCreate d1 :
  validate_AdminPostBatchesReq (Request.body req) = inr validated ->
  strategies C ("batchType_" +:+ AdminPostBatchesReq.type validated) = Some strategy ->
  prepareBatchJobForProcessing strategy (OfRequest validated) d = (inr toCreate, d1) ->
  Request.user req = None ->
  create_batch_job C req d
  = (inl (TypeError "Cannot read properties of undefined (reading 'id')"), d1,
     [Resolve ("batchType_" +:+ AdminPostBatchesReq.type validated);
      PrepareBatchJobForProcessing
        ("batchType_" +:+ AdminPostBatchesReq.type validated) (OfRequest validated)]).
Proof.
  intros Hv Hs Hp Hu. rewrite create_batch_job_unfold, Hv. cbv zeta.
  by rewrite Hs, Hp, Hu.
Qed.


(** X15. A batch type without a registered strategy fails the request at
    the first resolution: nothing is prepared or created and the state is
    untouched. *)
Theorem unknown_batch_type_fails_at_resolution req d validated :
  validate_AdminPostBatchesReq (Request.body req) = inr validated ->
  strategies C ("batchType_" +:+ AdminPostBatchesReq.type validated) = None ->
  create_batch_job C req d
  = (inl (ResolutionError ("batchType_" +:+ AdminPostBatchesReq.type validated)), d,
     [Resolve ("batchType_" +:+ AdminPostBatchesReq.type validated)]).
Proof.
  intros Hv Hs. rewrite create_batch_job_unfold, Hv. cbv zeta. by rewrite Hs.
Qed.
End BatchJobExtras.

(** ** The CORS origins of the store router *)

Lemma split_on_not_nil sep s : split_on sep s <> [].
Proof.
  destruct s as [|c r]; simpl; [done|].
  destruct (Ascii.eqb c sep); [done|]. by destruct (split_on sep r).
Qed.

Lemma concat_split_on sep s :
  String.concat (String sep EmptyString) (split_on sep s) = s.
Proof.
  induction s as [|c r IH]; simpl; [done|].
  pose proof (split_on_not_nil sep r) as Hne.
  destruct (Ascii.eqb c sep) eqn:Hc.
  - apply Ascii.eqb_eq in Hc. subst c.
    destruct (split_on sep r) as [|piece pieces]; [done|].
    rewrite <- IH. reflexivity.
  - destruct (split_on sep r) as [|piece pieces]; [done|].
    rewrite <- IH. by destruct pieces.
Qed.

Lemma split_on_length sep s :
  length (split_on sep s)
  = Datatypes.S (length (List.filter (fun c => Ascii.eqb c sep) (chars s))).
Proof.
  induction s as [|c r IH]; simpl; [done|].
  pose proof (split_on_not_nil sep r) as Hne. unfold chars in *. simpl.
  destruct (Ascii.eqb c sep); simpl; [by rewrite IH|].
  destruct (split_on sep r) as [|piece pieces]; [done|]. exact IH.
Qed.

Lemma split_on_pieces_without_sep sep s :
  Forall (fun piece => ~ In sep (chars piece)) (split_on sep s).
Proof.
  induction s as [|c r IH]; simpl.
  - repeat constructor. by intros [].
  - destruct (Ascii.eqb c sep) eqn:Hc.
    + constructor; [by intros []|done].
    + destruct (split_on sep r) as [|piece pieces]; [repeat constructor|].
      * intros [->|[]]. by rewrite Ascii.eqb_refl in Hc.
      * inversion IH as [|? ? Hpiece Hrest]; subst. constructor; [|done].
        intros [->|Hin]; [by rewrite Ascii.eqb_refl in Hc|by apply Hpiece].
Qed.

(** X16. The origins handed to [cors] are the pieces of [store_cors]
    between its commas, untrimmed: joined by commas they give [store_cors]
    back, there is one more origin than there are commas, and no origin
    contains a comma.  Without [store_cors] (or with an empty one) there is
    exactly one origin, the empty string.  Credentials are always enabled. *)
Theorem cors_origins_split_store_cors config :
  String.concat "," (CorsOptions.origin (cors_options config)) = storeCors config /\
  length (CorsOptions.origin (cors_options config))
  = Datatypes.S (length (List.filter (fun c => Ascii.eqb c ",") (chars (storeCors config)))) /\
  Forall (fun origin => ~ In ","%char (chars origin))
         (CorsOptions.origin (cors_options config)) /\
  (Config.store_cors config = None \/ Config.store_cors config = Some "" ->
   CorsOptions.origin (cors_options config) = [""]) /\
  CorsOptions.credentials (cors_options config) = true.
Proof.
  unfold cors_options. simpl. split_and!.
  - apply concat_split_on.
  - apply split_on_length.
  - apply split_on_pieces_without_sep.
  - unfold storeCors. by intros [-> | ->].
  - done.
Qed.

(** ** Gift-card deletion *)

Section GiftCardExtras.
Import GiftCards.
Context {St : Type}.
Variable giftCardService_delete : string -> St -> (Error + unit) * St.

(** X17. The handler makes one [delete] call with the id of the path and
    answers from nothing but its return: when [delete] returns, the answer
    is [{id, object: "gift-card", deleted: true}] whatever [delete] did to
    the state (also when it changed nothing); when [delete] throws, the
    handler throws the same error. *)
Theorem delete_gift_card_answers_from_return id s r s' t :
  delete_gift_card giftCardService_delete id s = (r, s', t) ->
  t = [Resolve "giftCardService"; GiftCardService_delete id] /\
  s' = (giftCardService_delete id s).2 /\
  ((exists e, (giftCardService_delete id s).1 = inl e /\ r = inl e) \/
   ((exists u, (giftCardService_delete id s).1 = inr u) /\
    r = inr {| Response.id := id; Response.object := "gift-card";
               Response.deleted := true |})).
Proof.
  unfold delete_gift_card, bind, pure_call, call, ret.
  destruct (giftCardService_delete id s) as [[e|u] s1]; intros [= <- <- <-]; simpl.
  - split_and!; [done|done|]. left. by exists e.
  - split_and!; [done|done|]. right. split; [by exists u|done].
Qed.
End GiftCardExtras.

(** ** The further properties on the sample stores *)

Section MoreOnSamples.
Import Sample SampleMore.

Abbreviation S_off := (MemStore.services flags_off).
Abbreviation cart_of resp := (CartWithTotals.cart (Response.cart resp)).

(** The three-item request, whose transaction is rolled back. *)
Lemma persistence_only_inside_transaction_sample :
  (Forall (fun c => outside_call c = true) (run flags_off req_three_items db0).2 /\
   (run flags_off req_three_items db0).1.2 = db0 /\
   exists e, (run flags_off req_three_items db0).1.1 = inl e) \/
  (exists pre body closing post,
      (run flags_off req_three_items db0).2
      = pre ++ Transaction_start :: body ++ closing :: post /\
      Forall (fun c => outside_call c = true) pre /\
      Forall (fun c => is_tx_marker c = false) body /\
      Forall (fun c => outside_call c = true) post /\
      (closing = Transaction_commit \/
       (closing = Transaction_rollback /\ post = [] /\
        (run flags_off req_three_items db0).1.2 = db0))).
Proof.
  exact (persistence_only_inside_transaction S_off fields relations req_three_items db0
           _ _ _ (surjective_pairing3 (run flags_off req_three_items db0))).
Defined.

(** The two-item request: both items generated, in order. *)
Lemma generate_calls_follow_items_sample :
  List.filter is_generate (run flags_off req_two_items db0).2
  = map (generate_call req_two_items r1) two_items.
Proof.
  destruct (generate_calls_follow_items S_off fields relations req_two_items db0
              _ _ _ (surjective_pairing3 (run flags_off req_two_items db0)))
    as [(_ & e & He)|(region & toCreate & t1 & n & Hp & Hf & Hall)].
  - vm_compute in He. discriminate He.
  - vm_compute in Hp. injection Hp as <- _ _. rewrite Hf.
    rewrite (Hall _ ltac:(vm_compute; reflexivity)). reflexivity.
Defined.

(** A customer id that no customer has. *)
Lemma customer_lookup_failure_stops_request_sample :
  run flags_off req_unknown_customer db0
  = (inl (MedusaError NOT_FOUND "Customer with id c9 was not found"), db0,
     opening_calls ++ [Resolve "customerService"; CustomerService_retrieve "c9"]).
Proof.
  apply (customer_lookup_failure_stops_request S_off fields relations
           req_unknown_customer db0 [r1; r2] r1 "c9").
  - reflexivity.
  - reflexivity.
  - reflexivity.
  - vm_compute. reflexivity.
Defined.

(** The next cart id is taken: [create] fails. *)
Lemma create_failure_rolls_back_sample :
  run flags_off req_two_items db_taken
  = (inl (MedusaError DB_ERROR "duplicate key"), db_taken,
     opening_calls ++ [Transaction_start; CartService_create toCreate_two;
                       Transaction_rollback]).
Proof.
  apply (create_failure_rolls_back S_off fields relations req_two_items db_taken
           r1 toCreate_two db_taken opening_calls _ db_taken).
  - vm_compute. reflexivity.
  - vm_compute. reflexivity.
Defined.

(** Three items, the second fails: the third is never generated. *)
Lemma generation_stops_at_first_failure_sample :
  run flags_off req_three_items db0
  = (inl (MedusaError NOT_FOUND "variant not found"), db0,
     opening_calls ++ [Transaction_start; CartService_create toCreate_three]
       ++ map (generate_call req_three_items r1) [item "v1" 2; item "v9" 1]
       ++ [Transaction_rollback]).
Proof.
  eapply (generation_stops_at_first_failure S_off fields relations req_three_items db0
            r1 toCreate_three db0 opening_calls [item "v1" 2] (item "v9" 1)
            [item "v3" 1]).
  - vm_compute. reflexivity.
  - reflexivity.
  - vm_compute. reflexivity.
  - vm_compute. reflexivity.
  - vm_compute. reflexivity.
Defined.

(** The read after the commit fails: the cart [cart_0] stays stored. *)
Lemma failed_read_after_commit_keeps_writes_sample :
  (create_cart services_unreadable fields relations req_default db0).1.1
  = inl (MedusaError DB_ERROR "connection lost") /\
  is_Some (MemStore.carts
             (create_cart services_unreadable fields relations req_default db0).1.2
           !! "cart_0").
Proof.
  rewrite (failed_read_after_commit_keeps_writes services_unreadable fields relations
             req_default db0 r1 (build_toCreate req_default r1 None) db0 opening_calls
             (new_cart "cart_0" (build_toCreate req_default r1 None))
             (MemStore.create (build_toCreate req_default r1 None) db0).2
             [CartService_create (build_toCreate req_default r1 None)]
             (MedusaError DB_ERROR "connection lost")
             ltac:(vm_compute; reflexivity) ltac:(vm_compute; reflexivity)
             ltac:(reflexivity)).
  split; [reflexivity|]. vm_compute. by eexists.
Defined.

(** An explicit [region_id] of the second region. *)
Lemma explicit_region_is_used_sample :
  exists resp d' tr,
    run flags_off req_region_r2 db0 = (inr resp, d', tr) /\
    Cart.region_id (cart_of resp) = "r2".
Proof.
  eexists _, _, _. split; [vm_compute; reflexivity|].
  exact (proj1 (explicit_region_is_used S_off (ServicesOK0 := memstore_ok flags_off)
                  fields relations req_region_r2 db0 "r2" _ _ _
                  eq_refl ltac:(vm_compute; reflexivity))).
Defined.


(** An anonymous request: no customer call. *)
Lemma anonymous_request_has_no_customer_sample :
  count is_customer_call (run flags_off req_default db0).2 = 0%nat.
Proof.
  exact (proj1 (anonymous_request_has_no_customer
                  S_off (ServicesOK0 := memstore_ok flags_off)
                  fields relations req_default db0 eq_refl _ _ _
                  (surjective_pairing3 (run flags_off req_default db0)))).
Defined.

(** A number as context: the context is the automatic one. *)
Lemma context_keys_sample :
  exists resp d' tr,
    run flags_off req_number_context db0 = (inr resp, d', tr) /\
    Cart.context (cart_of resp) = reqContext req_number_context.
Proof.
  eexists _, _, _. split; [vm_compute; reflexivity|].
  exact (proj2 (context_keys S_off (ServicesOK0 := memstore_ok flags_off)
                  fields relations req_number_context db0 _ _ _
                  ltac:(vm_compute; reflexivity)) eq_refl).
Defined.


(** Without a user: the strategy has run once ([1] in the state). *)
Lemma missing_user_fails_after_preparation_sample :
  BatchJobs.create_batch_job container batch_request_no_user 0%nat
  = (inl (TypeError "Cannot read properties of undefined (reading 'id')"), 1%nat,
     [BatchJobs.Resolve "batchType_product-export";
      BatchJobs.PrepareBatchJobForProcessing "batchType_product-export"
        (BatchJobs.OfRequest batch_validated)]).
Proof.
  apply (missing_user_fails_after_preparation container batch_request_no_user 0%nat
           batch_validated export_strategy batch_toCreate 1%nat).
  - vm_compute. reflexivity.
  - reflexivity.
  - reflexivity.
  - reflexivity.
Defined.

(** A type without a strategy. *)
Lemma unknown_batch_type_fails_at_resolution_sample :
  BatchJobs.create_batch_job container batch_request_unknown_type 0%nat
  = (inl (ResolutionError "batchType_nothing"), 0%nat,
     [BatchJobs.Resolve "batchType_nothing"]).
Proof.
  apply (unknown_batch_type_fails_at_resolution container batch_request_unknown_type
           0%nat {| BatchJobs.AdminPostBatchesReq.type := "nothing";
                    BatchJobs.AdminPostBatchesReq.context := ∅;
                    BatchJobs.AdminPostBatchesReq.dry_run := false |}).
  - vm_compute. reflexivity.
  - reflexivity.
Defined.

(** Deleting an id that is not there: [deleted: true], nothing changed. *)
Lemma delete_gift_card_answers_from_return_sample :
  (GiftCards.delete_gift_card delete_from_set "gift_9" ({[ "gift_1" ]} : gset string)).1.1
  = inr {| GiftCards.Response.id := "gift_9"; GiftCards.Response.object := "gift-card";
           GiftCards.Response.deleted := true |} /\
  (GiftCards.delete_gift_card delete_from_set "gift_9" ({[ "gift_1" ]} : gset string)).1.2
  = (delete_from_set "gift_9" {[ "gift_1" ]}).2.
Proof.
  destruct (delete_gift_card_answers_from_return delete_from_set "gift_9" {[ "gift_1" ]}
              _ _ _ (surjective_pairing3 _)) as (_ & Hs & [(e & He & _)|(_ & Hr)]).
  - discriminate He.
  - split; [exact Hr|exact Hs].
Defined.
End MoreOnSamples.
